(** * Hallucination-correction pipeline: a shallow embedding of the Python
      sources and the properties of the specification checked against it.

    The development follows the layout of the repository:

    - [Py]: the fragment of Python the sources rely on (text as sequences of
      code points, the dynamically typed values, dictionaries ordered by
      insertion, exceptions, [re] and [json] as far as the sources use them);
    - [Gateway]: the language-model adapter seen from its callers, a log of
      the requests issued and one response per request;
    - [ClaimExtractor], [IntentClassifier], [EvidenceVerifier]: the three
      model-facing components, method by method;
    - [Correction]: [llm_hallucination_correction/src/orchestrator.py];
    - [Core]: [src/core/orchestrator.py].

    Two things are left out of every embedded dictionary: the time stamps
    and the durations read from the clock.  Nothing in the sources branches
    on them.  Integers are unbounded and the JSON decoder has no nesting
    limit, as in the language definition. *)

From Stdlib Require Import List ZArith NArith Lia Bool String Ascii.
From Stdlib Require DecimalString.
Import ListNotations.

Set Implicit Arguments.

(** ** The Python fragment *)

Module Py.

(** A [str] is a sequence of Unicode code points; [len] counts them. *)
Definition str := list N.

Fixpoint bytes_of (s : string) : list N :=
  match s with
  | EmptyString => []
  | String a r => N_of_ascii a :: bytes_of r
  end.

(** Source literals are written in UTF-8 in this file and decoded here. *)
Fixpoint utf8_go (bs : list N) (pending : nat) (acc : N) : str :=
  match bs with
  | [] => []
  | b :: r =>
    match pending with
    | O =>
      if (b <? 128)%N then b :: utf8_go r 0 0%N
      else if (b <? 224)%N then utf8_go r 1 (b - 192)%N
      else if (b <? 240)%N then utf8_go r 2 (b - 224)%N
      else utf8_go r 3 (b - 240)%N
    | S O => (acc * 64 + (b - 128))%N :: utf8_go r 0 0%N
    | S p => utf8_go r p (acc * 64 + (b - 128))%N
    end
  end.

Definition py (s : string) : str := utf8_go (bytes_of s) 0 0%N.

Fixpoint str_eqb (a b : str) : bool :=
  match a, b with
  | [], [] => true
  | x :: a', y :: b' => (x =? y)%N && str_eqb a' b'
  | _, _ => false
  end.

(** [x in xs] for a list of strings. *)
Definition str_in (x : str) (xs : list str) : bool := existsb (str_eqb x) xs.

(** The characters [str.isspace], [str.strip] and the pattern [\s] agree
    on. *)
Definition is_space (c : N) : bool :=
  ((9 <=? c) && (c <=? 13) || (28 <=? c) && (c <=? 32)
   || (c =? 133) || (c =? 160) || (c =? 5760)
   || (8192 <=? c) && (c <=? 8202)
   || (c =? 8232) || (c =? 8233) || (c =? 8239) || (c =? 8287)
   || (c =? 12288))%N.

Fixpoint lstrip (s : str) : str :=
  match s with
  | c :: r => if is_space c then lstrip r else s
  | [] => []
  end.

Definition rstrip (s : str) : str := rev (lstrip (rev s)).

(** [s.strip()] *)
Definition strip (s : str) : str := rstrip (lstrip s).

(** [s.split(sep)] for a separator of one character. *)
Fixpoint split_on (sep : N) (s : str) (cur : str) : list str :=
  match s with
  | [] => [rev cur]
  | c :: r =>
    if (c =? sep)%N then rev cur :: split_on sep r []
    else split_on sep r (c :: cur)
  end.

Definition split (sep : N) (s : str) : list str := split_on sep s [].

(** [re.split(r'[...]+', s)] for a character class: the text between the
    maximal runs of separator characters, with an empty piece before a
    leading run and after a trailing one. *)
Fixpoint split_runs (sep : N -> bool) (s : str) (cur : str) (in_run : bool)
  : list str :=
  match s with
  | [] => [rev cur]
  | c :: r =>
    if sep c then
      if in_run then split_runs sep r [] true
      else rev cur :: split_runs sep r [] true
    else split_runs sep r (c :: cur) false
  end.

Definition re_split_class (sep : N -> bool) (s : str) : list str :=
  split_runs sep s [] false.

Fixpoint starts_with (p s : str) : bool :=
  match p, s with
  | [], _ => true
  | x :: p', y :: s' => (x =? y)%N && starts_with p' s'
  | _ :: _, [] => false
  end.

(** [s.find(sub)]: the first index at which [sub] occurs. *)
Fixpoint find_from (sub s : str) (i : nat) : option nat :=
  if starts_with sub s then Some i
  else match s with
       | [] => None
       | _ :: r => find_from sub r (S i)
       end.

Definition find (sub s : str) : option nat := find_from sub s 0.

(** [sub in s] *)
Definition contains (sub s : str) : bool :=
  match find sub s with Some _ => true | None => false end.

(** [sep.join(xs)] *)
Fixpoint join (sep : str) (xs : list str) : str :=
  match xs with
  | [] => []
  | [x] => x
  | x :: r => x ++ sep ++ join sep r
  end.

(** [str(n)] for a non-negative integer. *)
Definition str_of_N (n : N) : str :=
  bytes_of (DecimalString.NilZero.string_of_uint (N.to_uint n)).

(** [template.format(arg)] for a template with exactly one replacement
    field [{}] and no other brace, which is what the sources format. *)
Fixpoint format1 (template arg : str) : str :=
  match template with
  | 123%N :: 125%N :: r => arg ++ r
  | c :: r => c :: format1 r arg
  | [] => []
  end.

(** *** Values, dictionaries, exceptions *)

(** A float is kept as the decimal numeral it was written as (sign, digits
    and power of ten), or as one of the three special values. *)
Inductive pyfloat :=
| FDec (neg : bool) (mant : N) (exp : Z)
| FInf (neg : bool)
| FNaN.

#[warnings="-register-all"] Inductive pyval :=
| PNone
| PBool (b : bool)
| PInt (z : Z)
| PFloat (f : pyfloat)
| PStr (s : str)
| PList (l : list pyval)
| PDict (d : list (str * pyval)).

(** A [dict] with string keys, in insertion order. *)
Definition dict (V : Type) := list (str * V).

Definition f0_0 : pyval := PFloat (FDec false 0 (-1)).
Definition f0_3 : pyval := PFloat (FDec false 3 (-1)).

Fixpoint dict_get {V} (k : str) (d : dict V) : option V :=
  match d with
  | [] => None
  | (k', v) :: r => if str_eqb k k' then Some v else dict_get k r
  end.

(** [d[k] = v]: an existing key keeps its place, a new one goes last. *)
Fixpoint dict_set {V} (k : str) (v : V) (d : dict V) : dict V :=
  match d with
  | [] => [(k, v)]
  | (k', v') :: r =>
    if str_eqb k k' then (k, v) :: r else (k', v') :: dict_set k v r
  end.

(** [k in d] *)
Definition dict_has {V} (k : str) (d : dict V) : bool :=
  match dict_get k d with Some _ => true | None => false end.

(** [list(d.keys())] *)
Definition dict_keys {V} (d : dict V) : list str := map fst d.

Inductive exn :=
| KeyError (key : str)
| TypeError
| Fault (name message : str).

Inductive outcome (A : Type) :=
| Return (a : A)
| Raise (e : exn).
Arguments Return {A} a.
Arguments Raise {A} e.

(** [d[k]] *)
Definition getitem {V} (d : dict V) (k : str) : outcome V :=
  match dict_get k d with
  | Some v => Return v
  | None => Raise (KeyError k)
  end.

(** [r[k]] for a key [k] that the record [r] may lack. *)
Definition field {V} (k : string) (v : option V) : outcome V :=
  match v with
  | Some x => Return x
  | None => Raise (KeyError (py k))
  end.

(** *** Computations: a state, and a result or an exception.  The state
    survives the exception, as the effects of a Python call do. *)
Definition M (S A : Type) := S -> outcome A * S.

Definition ret {S A} (a : A) : M S A := fun s => (Return a, s).

Definition raise {S A} (e : exn) : M S A := fun s => (Raise e, s).

Definition bind {S A B} (m : M S A) (k : A -> M S B) : M S B :=
  fun s =>
    match m s with
    | (Return a, s') => k a s'
    | (Raise e, s') => (Raise e, s')
    end.

Definition lift {S A} (o : outcome A) : M S A := fun s => (o, s).

Declare Scope py_scope.
Delimit Scope py_scope with py.
Notation "x <- m ;; k" := (bind m (fun x => k))
  (at level 61, m at next level, right associativity) : py_scope.

(** *** [json.loads]

    The decoder is written as the two automata the grammar has: a lexer
    over the characters and a stack machine over the tokens.  [None]
    stands for [json.JSONDecodeError]. *)

Inductive token :=
| TLBrace | TRBrace | TLBracket | TRBracket | TColon | TComma
| TString (s : str)
| TAtom (lexeme : str).

(** The lexer's state: between tokens, inside a bare word (a number or a
    literal), inside a string, after a backslash, inside the four digits of
    a [\u] escape; the [LHi] states remember a high surrogate that the
    escape just read, which pairs with a low surrogate escape if one
    follows at once.  Texts under construction are kept reversed. *)
Inductive lstate :=
| LIdle
| LAtom (acc : str)
| LStr (acc : str)
| LEsc (acc : str)
| LHex (acc : str) (n : nat) (v : N)
| LHi (acc : str) (h : N)
| LHiEsc (acc : str) (h : N)
| LHiHex (acc : str) (h : N) (n : nat) (v : N).

Definition json_space (c : N) : bool :=
  ((c =? 32) || (c =? 9) || (c =? 10) || (c =? 13))%N.

Definition is_digit (c : N) : bool := ((48 <=? c) && (c <=? 57))%N.

Definition hex_value (c : N) : option N :=
  if is_digit c then Some (c - 48)%N
  else if ((97 <=? c) && (c <=? 102))%N then Some (c - 87)%N
  else if ((65 <=? c) && (c <=? 70))%N then Some (c - 55)%N
  else None.

Definition punctuation (c : N) : option token :=
  if (c =? 123)%N then Some TLBrace
  else if (c =? 125)%N then Some TRBrace
  else if (c =? 91)%N then Some TLBracket
  else if (c =? 93)%N then Some TRBracket
  else if (c =? 58)%N then Some TColon
  else if (c =? 44)%N then Some TComma
  else None.

Definition idle_step (c : N) : list token * lstate :=
  if json_space c then ([], LIdle)
  else match punctuation c with
       | Some t => ([t], LIdle)
       | None => if (c =? 34)%N then ([], LStr []) else ([], LAtom [c])
       end.

Definition is_high (v : N) : bool := ((55296 <=? v) && (v <=? 56319))%N.
Definition is_low (v : N) : bool := ((56320 <=? v) && (v <=? 57343))%N.

(** One character inside a string that is not part of an escape. *)
Definition str_step (acc : str) (c : N) : option (list token * lstate) :=
  if (c =? 34)%N then Some ([TString (rev acc)], LIdle)
  else if (c =? 92)%N then Some ([], LEsc acc)
  else if (c <? 32)%N then None
  else Some ([], LStr (c :: acc)).

(** The character after a backslash. *)
Definition esc_step (acc : str) (c : N) : option (list token * lstate) :=
  if (c =? 117)%N then Some ([], LHex acc 4 0%N)
  else
    let simple (x : N) := Some ([] : list token, LStr (x :: acc)) in
    if (c =? 34)%N then simple 34%N
    else if (c =? 92)%N then simple 92%N
    else if (c =? 47)%N then simple 47%N
    else if (c =? 98)%N then simple 8%N
    else if (c =? 102)%N then simple 12%N
    else if (c =? 110)%N then simple 10%N
    else if (c =? 114)%N then simple 13%N
    else if (c =? 116)%N then simple 9%N
    else None.

(** A [\u] escape read in full, with nothing pending. *)
Definition unit_done (acc : str) (v : N) : lstate :=
  if is_high v then LHi acc v else LStr (v :: acc).

Definition lstep (st : lstate) (c : N) : option (list token * lstate) :=
  match st with
  | LIdle => Some (idle_step c)
  | LAtom acc =>
    if json_space c || (c =? 34)%N
       || match punctuation c with Some _ => true | None => false end
    then let '(ts, st') := idle_step c in Some (TAtom (rev acc) :: ts, st')
    else Some ([], LAtom (c :: acc))
  | LStr acc => str_step acc c
  | LEsc acc => esc_step acc c
  | LHex acc n v =>
    match hex_value c with
    | None => None
    | Some h =>
      let v' := (v * 16 + h)%N in
      match n with
      | S (S m) => Some ([], LHex acc (S m) v')
      | _ => Some ([], unit_done acc v')
      end
    end
  | LHi acc h =>
    if (c =? 92)%N then Some ([], LHiEsc acc h) else str_step (h :: acc) c
  | LHiEsc acc h =>
    if (c =? 117)%N then Some ([], LHiHex acc h 4 0%N)
    else esc_step (h :: acc) c
  | LHiHex acc h n v =>
    match hex_value c with
    | None => None
    | Some x =>
      let v' := (v * 16 + x)%N in
      match n with
      | S (S m) => Some ([], LHiHex acc h (S m) v')
      | _ =>
        if is_low v'
        then Some ([], LStr ((65536 + (h - 55296) * 1024 + (v' - 56320))%N
                             :: acc))
        else Some ([], unit_done (h :: acc) v')
      end
    end
  end.

Fixpoint lex (st : lstate) (s : str) : option (list token) :=
  match s with
  | [] =>
    match st with
    | LIdle => Some []
    | LAtom acc => Some [TAtom (rev acc)]
    | _ => None
    end
  | c :: r =>
    match lstep st c with
    | None => None
    | Some (ts, st') =>
      match lex st' r with
      | None => None
      | Some rest => Some (ts ++ rest)
      end
    end
  end.

Fixpoint span (p : N -> bool) (s : str) : str * str :=
  match s with
  | c :: r => if p c then let '(a, b) := span p r in (c :: a, b) else ([], s)
  | [] => ([], [])
  end.

Definition digits_value (ds : str) : N :=
  fold_left (fun a d => (a * 10 + (d - 48))%N) ds 0%N.

(** A number: an optional minus sign; an integer part, a single zero or
    digits not starting with zero; an optional fraction, a dot and at least
    one digit; an optional exponent, [e] or [E], an optional sign and at
    least one digit.  It is an [int] without fraction and exponent, a
    [float] otherwise. *)
Definition number_value (s : str) : option pyval :=
  let '(neg, s1) :=
    match s with 45%N :: r => (true, r) | _ => (false, s) end in
  let '(ip, s2) := span is_digit s1 in
  match ip with
  | [] => None
  | d :: more =>
    if (d =? 48)%N && negb (match more with [] => true | _ => false end)
    then None
    else
      let frac :=
        match s2 with
        | 46%N :: r =>
          let '(fd, r') := span is_digit r in
          match fd with [] => None | _ => Some (Some fd, r') end
        | _ => Some (None, s2)
        end in
      match frac with
      | None => None
      | Some (fd, s3) =>
        let expo :=
          match s3 with
          | [] => Some None
          | c :: r =>
            if (c =? 101)%N || (c =? 69)%N then
              let '(eneg, r1) :=
                match r with
                | 45%N :: r' => (true, r')
                | 43%N :: r' => (false, r')
                | _ => (false, r)
                end in
              let '(ed, r2) := span is_digit r1 in
              match ed, r2 with
              | _ :: _, [] =>
                let e := Z.of_N (digits_value ed) in
                Some (Some (if eneg then (- e)%Z else e))
              | _, _ => None
              end
            else None
          end in
        match expo with
        | None => None
        | Some ev =>
          match fd, ev with
          | None, None =>
            let z := Z.of_N (digits_value ip) in
            Some (PInt (if neg then (- z)%Z else z))
          | _, _ =>
            let f := match fd with Some f => f | None => [] end in
            let e := match ev with Some e => e | None => 0%Z end in
            Some (PFloat (FDec neg (digits_value (ip ++ f))
                               (e - Z.of_nat (List.length f))))
          end
        end
      end
  end.

(** A bare word: one of the six literals, or a number. *)
Definition atom_value (a : str) : option pyval :=
  if str_eqb a (py "null") then Some PNone
  else if str_eqb a (py "true") then Some (PBool true)
  else if str_eqb a (py "false") then Some (PBool false)
  else if str_eqb a (py "NaN") then Some (PFloat FNaN)
  else if str_eqb a (py "Infinity") then Some (PFloat (FInf false))
  else if str_eqb a (py "-Infinity") then Some (PFloat (FInf true))
  else number_value a.

(** The containers under construction, innermost first.  An object frame
    holds the key whose value is awaited, if any. *)
Inductive frame :=
| FArr (acc : list pyval)
| FObj (acc : dict pyval) (key : option str).

(** What the grammar allows next. *)
Inductive pmode :=
| MValue | MValueOrClose | MKeyOrClose | MKey | MColon | MCommaOrClose
| MDone (v : pyval).

Definition pstate : Type := pmode * list frame.

(** A finished value goes to the enclosing container, or is the result. *)
Definition deliver (v : pyval) (stack : list frame) : option pstate :=
  match stack with
  | [] => Some (MDone v, [])
  | FArr acc :: s => Some (MCommaOrClose, FArr (acc ++ [v]) :: s)
  | FObj d (Some k) :: s =>
    Some (MCommaOrClose, FObj (dict_set k v d) None :: s)
  | FObj _ None :: _ => None
  end.

Definition value_step (t : token) (stack : list frame) : option pstate :=
  match t with
  | TLBrace => Some (MKeyOrClose, FObj [] None :: stack)
  | TLBracket => Some (MValueOrClose, FArr [] :: stack)
  | TString s => deliver (PStr s) stack
  | TAtom a =>
    match atom_value a with
    | Some v => deliver v stack
    | None => None
    end
  | _ => None
  end.

Definition close_step (t : token) (stack : list frame) : option pstate :=
  match t, stack with
  | TRBracket, FArr acc :: s => deliver (PList acc) s
  | TRBrace, FObj d None :: s => deliver (PDict d) s
  | _, _ => None
  end.

Definition key_step (t : token) (stack : list frame) : option pstate :=
  match t, stack with
  | TString k, FObj d None :: s => Some (MColon, FObj d (Some k) :: s)
  | _, _ => None
  end.

Definition pstep (st : pstate) (t : token) : option pstate :=
  let '(mode, stack) := st in
  match mode with
  | MValue => value_step t stack
  | MValueOrClose =>
    match t with TRBracket => close_step t stack | _ => value_step t stack end
  | MKeyOrClose =>
    match t with TRBrace => close_step t stack | _ => key_step t stack end
  | MKey => key_step t stack
  | MColon => match t with TColon => Some (MValue, stack) | _ => None end
  | MCommaOrClose =>
    match t, stack with
    | TComma, FArr _ :: _ => Some (MValue, stack)
    | TComma, FObj _ _ :: _ => Some (MKey, stack)
    | _, _ => close_step t stack
    end
  | MDone _ => None
  end.

Fixpoint parse (st : pstate) (ts : list token) : option pstate :=
  match ts with
  | [] => Some st
  | t :: r =>
    match pstep st t with
    | Some st' => parse st' r
    | None => None
    end
  end.

(** The outermost container under construction is an object. *)
Fixpoint bottom_obj (stack : list frame) : bool :=
  match stack with
  | [] => false
  | f :: r =>
    match r with
    | [] => match f with FObj _ _ => true | FArr _ => false end
    | _ :: _ => bottom_obj r
    end
  end.

(** What holds all along when the first token opens an object: the
    outermost container is an object, and so is the result in the end. *)
Definition object_run (st : pstate) : Prop :=
  match st with
  | (MDone v, _) => exists d, v = PDict d
  | (_, stack) => bottom_obj stack = true
  end.

Definition json_loads (s : str) : option pyval :=
  match lex LIdle s with
  | None => None
  | Some ts =>
    match parse (MValue, []) ts with
    | Some (MDone v, _) => Some v
    | _ => None
    end
  end.

(** *** The regular expressions of the sources *)

(** The decimal digits of Unicode 14 come in runs of ten, listed here by
    the code point of their zero; [\d] matches them and [int] reads
    them. *)
Definition decimal_zeros : list N :=
  [
   48; 1632; 1776; 1984; 2406; 2534; 2662; 2790; 2918; 3046; 3174;
   3302; 3430; 3558; 3664; 3792; 3872; 4160; 4240; 6112; 6160; 6470;
   6608; 6784; 6800; 6992; 7088; 7232; 7248; 42528; 43216; 43264;
   43472; 43504; 43600; 44016; 65296; 66720; 68912; 69734; 69872;
   69942; 70096; 70384; 70736; 70864; 71248; 71360; 71472; 71904;
   72016; 72784; 73040; 73120; 92768; 92864; 93008; 120782; 120792;
   120802; 120812; 120822; 123200; 123632; 125264; 130032
  ]%N.

Definition decimal_value (c : N) : option N :=
  match List.find (fun z => (z <=? c) && (c <? z + 10))%N decimal_zeros with
  | Some z => Some (c - z)%N
  | None => None
  end.

Definition is_decimal (c : N) : bool :=
  match decimal_value c with Some _ => true | None => false end.

(** [int(s)] for a non-empty run of decimal digits. *)
Definition int_of_digits (ds : str) : N :=
  fold_left
    (fun a d => (a * 10 + match decimal_value d with Some v => v | None => 0 end)%N)
    ds 0%N.

Fixpoint strip_prefix (p s : str) : option str :=
  match p, s with
  | [], _ => Some s
  | x :: p', y :: s' => if (x =? y)%N then strip_prefix p' s' else None
  | _ :: _, [] => None
  end.

Definition not_newline (c : N) : bool := negb (c =? 10)%N.

Definition not_space (c : N) : bool := negb (is_space c).

(** The last character of [s] that is not a line feed. *)
Definition last_on_line (s : str) : option N :=
  List.find not_newline (rev s).

(** [re.match(r'\[CLAIM_(\d+)\]:\s*(.+)', line)]: the two groups.  The
    digits are taken greedily and the bracket and colon must follow; the
    white space is skipped and the rest of the line is the second group.
    When only white space follows the colon, the engine gives it back
    until the dot can match, which is at its last character that is not a
    line feed. *)
Definition match_claim_line (line : str) : option (str * str) :=
  match strip_prefix (py "[CLAIM_") line with
  | None => None
  | Some r =>
    let '(ds, r1) := span is_decimal r in
    match ds with
    | [] => None
    | _ :: _ =>
      match strip_prefix (py "]:") r1 with
      | None => None
      | Some t =>
        let '(ws, rest) := span is_space t in
        match rest with
        | _ :: _ => Some (ds, fst (span not_newline rest))
        | [] =>
          match last_on_line ws with
          | Some c => Some (ds, [c])
          | None => None
          end
        end
      end
    end
  end.

Definition is_colon (c : N) : bool := ((c =? 65306) || (c =? 58))%N.

(** [\s*(\S+)] at the start of [t]: the first word after the white
    space. *)
Definition first_word (t : str) : option str :=
  match fst (span not_space (lstrip t)) with
  | [] => None
  | w => Some w
  end.

(** [[：:]?\s*(\S+)] at the start of [t]: the colon is taken if that
    leads to a match, and is the start of the word otherwise. *)
Definition label_tail (t : str) : option str :=
  match t with
  | c :: t' =>
    if is_colon c then
      match first_word t' with
      | Some w => Some w
      | None => first_word t
      end
    else first_word t
  | [] => None
  end.

(** [re.search(label + r'[：:]?\s*(\S+)', s)]: the group of the leftmost
    match. *)
Fixpoint search_label (label s : str) : option str :=
  let here :=
    match strip_prefix label s with
    | Some t => label_tail t
    | None => None
    end in
  match here with
  | Some w => Some w
  | None =>
    match s with
    | [] => None
    | _ :: r => search_label label r
    end
  end.

(** The last index, at least 1, at which [lit] occurs in [s]. *)
Fixpoint last_occurrence (lit s : str) (j : nat) (best : option nat)
  : option nat :=
  match s with
  | [] => best
  | _ :: r =>
    last_occurrence lit r (S j)
      (if (1 <=? j)%nat && starts_with lit s then Some j else best)
  end.

(** [re.search(r'^(\S+' + lit + ')', s)]: the longest prefix of the first
    word of [s] that ends with [lit] and has a character before it. *)
Definition leading_word_upto (lit s : str) : option str :=
  let word := fst (span not_space s) in
  match last_occurrence lit word 0 None with
  | Some j => Some (firstn (j + List.length lit) word)
  | None => None
  end.

(** [re.search(r'\{.*\}', s, re.DOTALL)]: from the first opening brace to
    the last closing brace after it. *)
Fixpoint upto_last (c : N) (s : str) : option str :=
  match s with
  | [] => None
  | x :: r =>
    match upto_last c r with
    | Some t => Some (x :: t)
    | None => if (x =? c)%N then Some [x] else None
    end
  end.

Fixpoint search_braces (s : str) : option str :=
  match s with
  | [] => None
  | x :: r =>
    if (x =? 123)%N then
      match upto_last 125%N r with
      | Some t => Some (x :: t)
      | None => None
      end
    else search_braces r
  end.

End Py.

Import Py.
Local Open Scope py_scope.

(** ** The language-model adapter, from the side of its callers *)

Module Gateway.

(** A prompt is a fixed text around the arguments of the method that builds
    it.  The callers never look into it, so it is kept as the method and
    its arguments. *)
Inductive prompt :=
| ClaimExtractionPrompt (text : str)
| IntentClassificationPrompt (query : str)
| ComparisonEntitiesPrompt (query : str)
| VerificationPrompt (claim : str) (evidence_snippets : list pyval)
                     (query intent : str).

Record request := {
  rq_prompt : prompt;
  rq_max_tokens : N;
  rq_temperature : pyfloat
}.

(** Modelled from the spec: the adapter's own module ([llm_client]) is
    not among the sources, only its callers and its tests are.  A
    response is a dictionary, and the model keeps the keys the callers
    read, each present or absent.  Of the two documented shapes,
    [{text, usage, model, finish_reason}] has [text] alone of the three,
    and [{error: True, text: diagnostic}], which is also what the tests
    of the adapter assert, has [error] and [text]. *)
Record response := {
  error : option bool;
  text : option str;
  error_message : option str
}.

Definition text_response (t : str) : response :=
  {| error := None; text := Some t; error_message := None |}.

Definition error_response (diagnostic : str) : response :=
  {| error := Some true; text := Some diagnostic; error_message := None |}.

(** [response.get('error')], as a condition. *)
Definition get_error (r : response) : bool :=
  match error r with Some b => b | None => false end.

(** Modelled from the spec: [call_with_retry] returns a response and
    does not raise.  The adapter answers the n-th request of a run; what
    it answers is up to the model behind it. *)
Definition LLMAdapter := nat -> request -> response.

(** The requests issued so far, oldest first. *)
Definition log := list request.

Definition call_with_retry (llm : LLMAdapter) (p : prompt) (max_tokens : N)
    (temperature : pyfloat) : M log response :=
  fun l =>
    let rq := {| rq_prompt := p; rq_max_tokens := max_tokens;
                 rq_temperature := temperature |} in
    (Return (llm (List.length l) rq), l ++ [rq]).

Definition t0_1 : pyfloat := FDec false 1 (-1).

(** A response of either documented shape can be read by its callers: it
    is flagged as an error, or it carries a text. *)
Definition readable (r : response) : Prop :=
  get_error r = true \/ exists t, text r = Some t.

End Gateway.

(** ** [llm_hallucination_correction/src/claim_extractor.py] *)

Module ClaimExtractor.
Import Gateway.

(** A claim is a dictionary with the keys [text], [confidence] and
    [atomic]; the claims read off the model's lines and off the sentences
    also have [id] and [original_position]. *)
Record Claim := {
  id : option str;
  claim_text : str;
  confidence : pyfloat;
  atomic : bool;
  original_position : option nat
}.

Record t := { llm : LLMAdapter }.

Definition c0_7 : pyfloat := FDec false 7 (-1).
Definition c0_9 : pyfloat := FDec false 9 (-1).
Definition c1_0 : pyfloat := FDec false 10 (-1).

(** [{"text": text, "confidence": 1.0, "atomic": True}] *)
Definition whole_text_claim (text : str) : Claim :=
  {| id := None; claim_text := text; confidence := c1_0; atomic := true;
     original_position := None |}.

(** [f"claim_{n}"] *)
Definition claim_id (n : N) : str := py "claim_" ++ str_of_N n.

Definition _estimate_position (claim_text original_text : str) : nat :=
  match find claim_text original_text with
  | Some i => i
  | None => 0
  end.

(** The class [[.!?。！？]]. *)
Definition terminal_punctuation (c : N) : bool :=
  ((c =? 46) || (c =? 33) || (c =? 63)
   || (c =? 12290) || (c =? 65281) || (c =? 65311))%N.

(** The loop of [_fallback_extraction] over [enumerate(sentences)]. *)
Fixpoint fallback_loop (sentences : list str) (i : nat) (claims : list Claim)
  : list Claim :=
  match sentences with
  | [] => claims
  | sentence :: rest =>
    let sentence := strip sentence in
    if (10 <? List.length sentence)%nat then
      fallback_loop rest (S i)
        (claims ++ [ {| id := Some (claim_id (N.of_nat (i + 1)));
                        claim_text := sentence;
                        confidence := c0_7;
                        atomic := false;
                        original_position := Some i |} ])
    else fallback_loop rest (S i) claims
  end.

Definition _fallback_extraction (text : str) : list Claim :=
  let sentences := re_split_class terminal_punctuation text in
  match fallback_loop sentences 0 [] with
  | [] => [whole_text_claim text]
  | claims => claims
  end.

(** The loop of [_parse_claims_response] over the lines. *)
Fixpoint parse_loop (lines : list str) (original_text : str)
    (claims : list Claim) : list Claim :=
  match lines with
  | [] => claims
  | line :: rest =>
    let line := strip line in
    match line with
    | [] => parse_loop rest original_text claims
    | _ :: _ =>
      match match_claim_line line with
      | Some (digits, body) =>
        let claim_num := int_of_digits digits in
        let claim_text := strip body in
        parse_loop rest original_text
          (claims ++ [ {| id := Some (claim_id claim_num);
                          claim_text := claim_text;
                          confidence := c0_9;
                          atomic := true;
                          original_position :=
                            Some (_estimate_position claim_text
                                                     original_text) |} ])
      | None => parse_loop rest original_text claims
      end
    end
  end.

Definition _parse_claims_response (response original_text : str)
  : list Claim :=
  let lines := split 10%N (strip response) in
  match parse_loop lines original_text [] with
  | [] => _fallback_extraction original_text
  | claims => claims
  end.

Definition extract_claims (self : t) (text : str) : M log (list Claim) :=
  if match text with [] => true | _ => false end
     || (List.length (strip text) <? 10)%nat
  then ret [whole_text_claim text]
  else
    response <- call_with_retry (llm self) (ClaimExtractionPrompt text)
                                500 t0_1 ;;
    if get_error response then ret (_fallback_extraction text)
    else
      response_text <- lift (field "text" (Gateway.text response)) ;;
      ret (_parse_claims_response response_text text).

End ClaimExtractor.

(** ** [llm_hallucination_correction/src/intent_classifier.py] *)

Module IntentClassifier.
Import Gateway.

(** The [intent] section of the configuration; either key may be
    missing. *)
Record Config := {
  cfg_supported_intents : option (list str);
  cfg_default_intent : option str
}.

Record t := {
  llm : LLMAdapter;
  config : Config;
  supported_intents : list str;
  default_intent : str;
  intent_templates : dict str
}.

Definition __init__ (llm_adapter : LLMAdapter) (config : Config) : t :=
  {| llm := llm_adapter;
     config := config;
     supported_intents :=
       match cfg_supported_intents config with Some l => l | None => [] end;
     default_intent :=
       match cfg_default_intent config with
       | Some d => d
       | None => py "事实查询"
       end;
     intent_templates :=
       [ (py "事实查询", py "找到关于[{}]的具体事实");
         (py "比较查询", py "找到[{}]的对比信息");
         (py "方法查询", py "找到如何[{}]的方法或步骤");
         (py "观点查询", py "找到关于[{}]的不同观点或评价") ] |}.

(** The three extraction patterns, in the order they are tried. *)
Definition patterns : list (str -> option str) :=
  [ search_label (py "意图");
    leading_word_upto (py "查询");
    search_label (py "类型") ].

Fixpoint pattern_loop (self : t) (ps : list (str -> option str))
    (cleaned : str) : option str :=
  match ps with
  | [] => None
  | pattern :: rest =>
    match pattern cleaned with
    | Some candidate =>
      if str_in candidate (supported_intents self) then Some candidate
      else pattern_loop self rest cleaned
    | None => pattern_loop self rest cleaned
    end
  end.

Definition _parse_intent_response (self : t) (response : str) : str :=
  let cleaned := strip response in
  match List.find (fun intent => contains intent cleaned)
                  (supported_intents self) with
  | Some intent => intent
  | None =>
    match pattern_loop self patterns cleaned with
    | Some candidate => candidate
    | None => default_intent self
    end
  end.

Definition classify_intent (self : t) (query : str) : M log str :=
  response <- call_with_retry (llm self) (IntentClassificationPrompt query)
                              100 t0_1 ;;
  if get_error response then ret (default_intent self)
  else
    response_text <- lift (field "text" (Gateway.text response)) ;;
    let intent := _parse_intent_response self response_text in
    ret (if str_in intent (supported_intents self) then intent
         else default_intent self).

Definition _extract_comparison_entities (self : t) (query : str)
  : M log (list str) :=
  response <- call_with_retry (llm self) (ComparisonEntitiesPrompt query)
                              100 t0_1 ;;
  if get_error response then ret [query]
  else
    response_text <- lift (field "text" (Gateway.text response)) ;;
    let entities := map strip (split 44%N response_text) in
    ret (filter (fun e => match e with [] => false | _ => true end) entities).

Definition generate_retrieval_prompt (self : t) (query intent : str)
  : M log str :=
  let otherwise : M log str :=
    template <- lift (getitem (intent_templates self) intent) ;;
    ret (format1 template query) in
  if str_eqb intent (py "比较查询") then
    compared_entities <- _extract_comparison_entities self query ;;
    if (2 <=? List.length compared_entities)%nat then
      let entities_str := join (py "和") (firstn 2 compared_entities) in
      template <- lift (getitem (intent_templates self) intent) ;;
      ret (format1 template entities_str)
    else otherwise
  else otherwise.

End IntentClassifier.

(** ** [src/verification/evidence_verifier.py] *)

Module EvidenceVerifier.
Import Gateway.

(** An entry of the evidence map. *)
Record EvidenceInfo := {
  ev_claim : str;
  retrieval_query : str;
  evidence : list pyval
}.

Record t := {
  llm : LLMAdapter;
  config : dict pyval;
  confidence_threshold : pyval
}.

Definition __init__ (llm_adapter : LLMAdapter) (config : dict pyval) : t :=
  {| llm := llm_adapter;
     config := config;
     confidence_threshold :=
       match dict_get (py "confidence_threshold") config with
       | Some v => v
       | None => PFloat (FDec false 8 (-1))
       end |}.

Definition UNVERIFIED : pyval := PStr (py "UNVERIFIED").

Definition _create_error_result (claim error_message : str) : dict pyval :=
  [ (py "verdict", UNVERIFIED);
    (py "confidence", f0_0);
    (py "claim", PStr claim);
    (py "supporting_evidence", PList []);
    (py "contradicting_evidence", PList []);
    (py "reasoning", PStr (py "验证过程中发生错误: " ++ error_message));
    (py "intent_specific_analysis", PStr []);
    (py "error", PBool true) ].

Definition _create_fallback_result (claim intent raw_response : str)
  : dict pyval :=
  [ (py "verdict", UNVERIFIED);
    (py "confidence", f0_3);
    (py "claim", PStr claim);
    (py "intent", PStr intent);
    (py "supporting_evidence", PList []);
    (py "contradicting_evidence", PList []);
    (py "reasoning",
     PStr (py "无法解析验证响应，原始响应: " ++ firstn 200 raw_response
           ++ py "..."));
    (py "intent_specific_analysis",
     PStr (py "响应格式错误，无法进行意图特定分析"));
    (py "fallback", PBool true) ].

(** [field in x] for a string [field]: a key of a dictionary, an element of
    a list, a part of a string; the other objects are not containers. *)
Definition py_in (field : str) (x : pyval) : outcome bool :=
  match x with
  | PDict d => Return (dict_has field d)
  | PList l =>
    Return (existsb (fun v => match v with
                              | PStr s => str_eqb field s
                              | _ => false
                              end) l)
  | PStr s => Return (contains field s)
  | _ => Raise TypeError
  end.

(** The loop over [required_fields]: whether one of them is missing. *)
Fixpoint missing_field (fields : list str) (result : pyval) : outcome bool :=
  match fields with
  | [] => Return false
  | f :: rest =>
    match py_in f result with
    | Raise e => Raise e
    | Return false => Return true
    | Return true => missing_field rest result
    end
  end.

(** The loop over the two list fields. *)
Fixpoint ensure_lists (fields : list str) (result : dict pyval)
  : dict pyval :=
  match fields with
  | [] => result
  | f :: rest =>
    match dict_get f result with
    | Some (PList _) => ensure_lists rest result
    | _ => ensure_lists rest (dict_set f (PList []) result)
    end
  end.

(** The [try] of [_parse_verification_response]: the text between the
    braces if the pattern matches, the whole response otherwise. *)
Definition decode_response (response : str) : option pyval :=
  match search_braces response with
  | Some json_str => json_loads json_str
  | None => json_loads response
  end.

Definition _parse_verification_response (response claim intent : str)
  : outcome (dict pyval) :=
  match decode_response response with
  | None => Return (_create_fallback_result claim intent response)
  | Some result =>
    match missing_field [py "verdict"; py "confidence"] result with
    | Raise e => Raise e
    | Return true => Return (_create_fallback_result claim intent response)
    | Return false =>
      match result with
      | PDict d =>
        let d := dict_set (py "claim") (PStr claim) d in
        let d := dict_set (py "intent") (PStr intent) d in
        Return (ensure_lists [py "supporting_evidence";
                              py "contradicting_evidence"] d)
      | _ => Raise TypeError
      end
    end
  end.

Definition verify_claim (self : t) (claim : str)
    (evidence_snippets : list pyval) (query intent : str)
  : M log (dict pyval) :=
  response <- call_with_retry (llm self)
                (VerificationPrompt claim evidence_snippets query intent)
                800 t0_1 ;;
  if get_error response then
    message <- lift (field "error_message" (error_message response)) ;;
    ret (_create_error_result claim message)
  else
    response_text <- lift (field "text" (Gateway.text response)) ;;
    lift (_parse_verification_response response_text claim intent).

(** The verification of a claim that has no entry in the evidence map. *)
Definition no_evidence_result (claim_id claim_text : str) : dict pyval :=
  [ (py "claim_id", PStr claim_id);
    (py "claim", PStr claim_text);
    (py "verdict", UNVERIFIED);
    (py "confidence", f0_0);
    (py "evidence_count", PInt 0);
    (py "reasoning", PStr (py "未能检索到相关证据进行验证"));
    (py "supporting_evidence", PList []);
    (py "contradicting_evidence", PList []) ].

(** The body of the loop of [batch_verify], for one claim. *)
Definition verify_one (self : t) (evidence_map : dict EvidenceInfo)
    (query intent : str) (claim_info : ClaimExtractor.Claim)
  : M log (dict pyval) :=
  claim_id <- lift (field "id" (ClaimExtractor.id claim_info)) ;;
  let claim_text := ClaimExtractor.claim_text claim_info in
  if dict_has claim_id evidence_map then
    evidence_info <- lift (getitem evidence_map claim_id) ;;
    let evidence_snippets := evidence evidence_info in
    verification_result <-
      verify_claim self claim_text evidence_snippets query intent ;;
    let verification_result :=
      dict_set (py "claim_id") (PStr claim_id) verification_result in
    let verification_result :=
      dict_set (py "evidence_count")
               (PInt (Z.of_nat (List.length evidence_snippets)))
               verification_result in
    ret verification_result
  else ret (no_evidence_result claim_id claim_text).

Fixpoint batch_loop (self : t) (claims : list ClaimExtractor.Claim)
    (evidence_map : dict EvidenceInfo) (query intent : str)
    (verification_results : list (dict pyval))
  : M log (list (dict pyval)) :=
  match claims with
  | [] => ret verification_results
  | claim_info :: rest =>
    verification_result <-
      verify_one self evidence_map query intent claim_info ;;
    batch_loop self rest evidence_map query intent
               (verification_results ++ [verification_result])
  end.

Definition batch_verify (self : t) (claims : list ClaimExtractor.Claim)
    (evidence_map : dict EvidenceInfo) (query intent : str)
  : M log (list (dict pyval)) :=
  batch_loop self claims evidence_map query intent [].

End EvidenceVerifier.

(** ** [llm_hallucination_correction/src/orchestrator.py] *)

Module Correction.
Import Gateway.
Import EvidenceVerifier (EvidenceInfo, Build_EvidenceInfo, evidence).

(** The [retrieval] section of the configuration. *)
Record RetrievalConfig := {
  max_retrieved_docs : option pyval;
  similarity_threshold : option pyval
}.

(** What the corrector hands back, as far as the orchestrator reads it. *)
Record CorrectionResult := {
  cr_corrected_answer : str;
  cr_supported_claims : nat;
  cr_contradicted_claims : nat
}.

(** The orchestrator and its components.  The verifier and the corrector
    of this package are not among the sources, and the retriever is a
    wrapper around the embedding model and the store: each is taken by
    the one method the orchestrator calls on it, and the retriever answers
    from the store or raises. *)
Record t := {
  retrieval : option RetrievalConfig;
  vector_retriever_search : str -> pyval -> pyval -> outcome (list pyval);
  intent_classifier : IntentClassifier.t;
  claim_extractor : ClaimExtractor.t;
  evidence_verifier_verify_claim :
    str -> list pyval -> str -> str -> M log (dict pyval);
  corrector_correct_answer :
    str -> list (dict pyval) -> str -> str -> M log CorrectionResult
}.

(** [_initialize_components]: one adapter serves every component. *)
Definition _initialize_components (llm_adapter : LLMAdapter)
    (intent_config : IntentClassifier.Config)
    (retrieval_config : option RetrievalConfig)
    (search : str -> pyval -> pyval -> outcome (list pyval))
    (verify_claim : LLMAdapter -> str -> list pyval -> str -> str
                    -> M log (dict pyval))
    (correct_answer : LLMAdapter -> str -> list (dict pyval) -> str -> str
                      -> M log CorrectionResult) : t :=
  {| retrieval := retrieval_config;
     vector_retriever_search := search;
     intent_classifier := IntentClassifier.__init__ llm_adapter intent_config;
     claim_extractor := {| ClaimExtractor.llm := llm_adapter |};
     evidence_verifier_verify_claim := verify_claim llm_adapter;
     corrector_correct_answer := correct_answer llm_adapter |}.

Definition _build_retrieval_query (self : t) (original_query claim intent : str)
  : M log str :=
  retrieval_prompt <-
    IntentClassifier.generate_retrieval_prompt (intent_classifier self)
                                               original_query intent ;;
  ret (retrieval_prompt ++ py " 具体验证声明: " ++ claim).

(** The loop of [_retrieve_evidence_for_claims]. *)
Fixpoint retrieve_loop (self : t) (query : str)
    (claims : list ClaimExtractor.Claim) (intent : str)
    (evidence_map : dict EvidenceInfo) : M log (dict EvidenceInfo) :=
  match claims with
  | [] => ret evidence_map
  | claim_info :: rest =>
    let claim_text := ClaimExtractor.claim_text claim_info in
    claim_id <- lift (field "id" (ClaimExtractor.id claim_info)) ;;
    retrieval_query <- _build_retrieval_query self query claim_text intent ;;
    section <- lift (field "retrieval" (retrieval self)) ;;
    n_results <- lift (field "max_retrieved_docs"
                             (max_retrieved_docs section)) ;;
    section <- lift (field "retrieval" (retrieval self)) ;;
    threshold <- lift (field "similarity_threshold"
                             (similarity_threshold section)) ;;
    evidence_snippets <-
      lift (vector_retriever_search self retrieval_query n_results threshold) ;;
    retrieve_loop self query rest intent
      (dict_set claim_id
                (Build_EvidenceInfo claim_text retrieval_query
                                    evidence_snippets)
                evidence_map)
  end.

Definition _retrieve_evidence_for_claims (self : t) (query : str)
    (claims : list ClaimExtractor.Claim) (intent : str)
  : M log (dict EvidenceInfo) :=
  retrieve_loop self query claims intent [].

(** The loop of [_verify_claims]. *)
Fixpoint verify_loop (self : t) (claims : list ClaimExtractor.Claim)
    (evidence_map : dict EvidenceInfo) (query intent : str)
    (verifications : list (dict pyval)) : M log (list (dict pyval)) :=
  match claims with
  | [] => ret verifications
  | claim_info :: rest =>
    claim_id <- lift (field "id" (ClaimExtractor.id claim_info)) ;;
    let claim_text := ClaimExtractor.claim_text claim_info in
    if dict_has claim_id evidence_map then
      evidence_info <- lift (getitem evidence_map claim_id) ;;
      let evidence_snippets := evidence evidence_info in
      verification_result <-
        evidence_verifier_verify_claim self claim_text evidence_snippets
                                       query intent ;;
      let verification_result :=
        dict_set (py "claim_id") (PStr claim_id) verification_result in
      let verification_result :=
        dict_set (py "evidence_count")
                 (PInt (Z.of_nat (List.length evidence_snippets)))
                 verification_result in
      verify_loop self rest evidence_map query intent
                  (verifications ++ [verification_result])
    else
      verify_loop self rest evidence_map query intent
        (verifications
         ++ [EvidenceVerifier.no_evidence_result claim_id claim_text])
  end.

Definition _verify_claims (self : t) (claims : list ClaimExtractor.Claim)
    (evidence_map : dict EvidenceInfo) (query intent : str)
  : M log (list (dict pyval)) :=
  verify_loop self claims evidence_map query intent [].

(** The results of a run that went through ([analysis_results] and the
    answer); the support ratio, a quotient of floats, is left out. *)
Record Report := {
  detected_intent : str;
  corrected_answer : str;
  extracted_claims : list ClaimExtractor.Claim;
  evidence_retrieval : dict EvidenceInfo;
  claim_verifications : list (dict pyval);
  total_claims : nat;
  supported_claims : nat;
  contradicted_claims : nat
}.

Inductive Result :=
| Succeeded (query original_answer : str) (report : Report)
| Failed (query original_answer : str) (error : exn).

(** [result['success']] *)
Definition success (r : Result) : bool :=
  match r with Succeeded _ _ _ => true | Failed _ _ _ => false end.

(** The body of the [try] of [process_correction]. *)
Definition run (self : t) (query original_answer : str) : M log Report :=
  intent <- IntentClassifier.classify_intent (intent_classifier self) query ;;
  claims <- ClaimExtractor.extract_claims (claim_extractor self)
                                          original_answer ;;
  evidence_map <- _retrieve_evidence_for_claims self query claims intent ;;
  verifications <- _verify_claims self claims evidence_map query intent ;;
  correction_result <-
    corrector_correct_answer self original_answer verifications query intent ;;
  ret {| detected_intent := intent;
         corrected_answer := cr_corrected_answer correction_result;
         extracted_claims := claims;
         evidence_retrieval := evidence_map;
         claim_verifications := verifications;
         total_claims := List.length claims;
         supported_claims := cr_supported_claims correction_result;
         contradicted_claims := cr_contradicted_claims correction_result |}.

Definition process_correction (self : t) (query original_answer : str)
    (l : log) : Result * log :=
  match run self query original_answer l with
  | (Return report, l') => (Succeeded query original_answer report, l')
  | (Raise e, l') => (Failed query original_answer e, l')
  end.

End Correction.

(** ** [src/core/orchestrator.py] *)

Module Core.
Import EvidenceVerifier (EvidenceInfo).

(** The [results] dictionary when the run is through. *)
Record Results := {
  initial_answer : str;
  intent : str;
  claims : list ClaimExtractor.Claim;
  evidence_map : dict EvidenceInfo;
  verifications : list (dict pyval);
  corrected_answer : str;
  hallucination_analysis : pyval;
  final_report : pyval
}.

(** The orchestrator, by its eight stage methods.  Each returns its value
    and the metadata of the step, or raises; what it does inside is the
    business of the components. *)
Record t := {
  _generate_initial_answer : str -> option str -> outcome (str * pyval);
  _classify_intent : str -> outcome (str * pyval);
  _extract_claims : str -> outcome (list ClaimExtractor.Claim * pyval);
  _retrieve_evidence :
    str -> list ClaimExtractor.Claim -> str
    -> outcome (dict EvidenceInfo * pyval);
  _verify_claims :
    list ClaimExtractor.Claim -> dict EvidenceInfo -> str -> str
    -> outcome (list (dict pyval) * pyval);
  _correct_answer :
    str -> list (dict pyval) -> str -> str -> outcome (str * pyval);
  _detect_hallucinations :
    str -> str -> str -> dict EvidenceInfo -> outcome (pyval * pyval);
  _generate_final_report :
    str -> str -> list ClaimExtractor.Claim -> dict EvidenceInfo
    -> list (dict pyval) -> str -> pyval -> dict pyval -> outcome pyval
}.

(** The stages in the order of the run, by the key each one records
    itself under; the report is assembled last and records nothing. *)
Definition stage_names : list str :=
  [ py "initial_answer_generation"; py "intent_classification";
    py "claim_extraction"; py "evidence_retrieval";
    py "claim_verification"; py "answer_correction";
    py "hallucination_detection" ].

(** [execution_steps[name] = step_meta] *)
Definition record_step (name : string) (step_meta : pyval)
  : M (dict pyval) unit :=
  fun execution_steps => (Return tt, dict_set (py name) step_meta execution_steps).

Definition get_steps : M (dict pyval) (dict pyval) :=
  fun execution_steps => (Return execution_steps, execution_steps).

(** A stage, and the step it records once it has returned. *)
Definition stage {A} (name : string) (call : outcome (A * pyval))
  : M (dict pyval) A :=
  r <- lift call ;;
  _ <- record_step name (snd r) ;;
  ret (fst r).

(** The body of the [try] of [process_query]; the state is
    [execution_steps]. *)
Definition run (self : t) (query : str) (context : option str)
  : M (dict pyval) Results :=
  initial_answer <-
    stage "initial_answer_generation"
          (_generate_initial_answer self query context) ;;
  intent <- stage "intent_classification" (_classify_intent self query) ;;
  claims <- stage "claim_extraction" (_extract_claims self initial_answer) ;;
  evidence_map <-
    stage "evidence_retrieval" (_retrieve_evidence self query claims intent) ;;
  verifications <-
    stage "claim_verification"
          (_verify_claims self claims evidence_map query intent) ;;
  corrected_answer <-
    stage "answer_correction"
          (_correct_answer self initial_answer verifications query intent) ;;
  hallucination_analysis <-
    stage "hallucination_detection"
          (_detect_hallucinations self query initial_answer corrected_answer
                                  evidence_map) ;;
  execution_steps <- get_steps ;;
  final_report <-
    lift (_generate_final_report self initial_answer intent claims
             evidence_map verifications corrected_answer
             hallucination_analysis execution_steps) ;;
  ret {| initial_answer := initial_answer;
         intent := intent;
         claims := claims;
         evidence_map := evidence_map;
         verifications := verifications;
         corrected_answer := corrected_answer;
         hallucination_analysis := hallucination_analysis;
         final_report := final_report |}.

Definition _identify_error_step (execution_steps : dict pyval) : str :=
  match execution_steps with
  | [] => py "initialization"
  | _ :: _ => last (dict_keys execution_steps) []
  end.

Inductive QueryResult :=
| Completed (query : str) (results : Results) (execution_steps : dict pyval)
            (steps_completed : list str)
| Failed (query : str) (error : exn) (error_step : str).

(** [result['success']] *)
Definition success (r : QueryResult) : bool :=
  match r with Completed _ _ _ _ => true | Failed _ _ _ => false end.

Definition process_query (self : t) (query : str) (context : option str)
  : QueryResult :=
  match run self query context [] with
  | (Return results, execution_steps) =>
    Completed query results execution_steps (dict_keys execution_steps)
  | (Raise e, execution_steps) =>
    Failed query e (_identify_error_step execution_steps)
  end.

End Core.

(** ** What the statements and their examples need: the keys of the
    built-in templates, and components with a fixed behaviour *)

Module Scenarios.
Import Gateway.

(** The keys of [intent_templates]. *)
Definition template_keys : list str :=
  [py "事实查询"; py "比较查询"; py "方法查询"; py "观点查询"].

(** The adapter after its retries are exhausted. *)
Definition failing_adapter (diagnostic : str) : LLMAdapter :=
  fun _ _ => error_response diagnostic.

(** An adapter whose model always writes the same text. *)
Definition constant_adapter (t : str) : LLMAdapter :=
  fun _ _ => text_response t.

(** A JSON string literal for a text without quotes and escapes. *)
Definition quoted (s : str) : str := 34%N :: s ++ [34%N].

(** The JSON object with the given verdict and the confidence 0.9. *)
Definition verdict_json (verdict : str) : str :=
  py "{" ++ quoted (py "verdict") ++ py ": " ++ quoted verdict ++ py ", "
  ++ quoted (py "confidence") ++ py ": 0.9}".

(** An adapter whose model does each task well: it names the intent,
    lists two claims, names two entities, supports what it is shown. *)
Definition helpful_adapter : LLMAdapter :=
  fun _ rq =>
    match rq_prompt rq with
    | IntentClassificationPrompt _ => text_response (py "事实查询")
    | ClaimExtractionPrompt _ =>
      text_response (py "[CLAIM_1]: Python is interpreted" ++ [10%N]
                     ++ py "[CLAIM_2]: Python appeared in 1991")
    | ComparisonEntitiesPrompt _ => text_response (py "Python, Rust")
    | VerificationPrompt _ _ _ _ =>
      text_response (verdict_json (py "SUPPORTED"))
    end.

(** The request [verify_claim] sends. *)
Definition verification_request (claim : str) (evidence_snippets : list pyval)
    (query intent : str) : request :=
  {| rq_prompt := VerificationPrompt claim evidence_snippets query intent;
     rq_max_tokens := 800;
     rq_temperature := t0_1 |}.


(** The four verdicts. *)
Definition verdicts : list pyval :=
  [PStr (py "SUPPORTED"); PStr (py "CONTRADICTED");
   PStr (py "PARTIALLY_SUPPORTED"); PStr (py "UNVERIFIED")].

(** A store that holds nothing. *)
Definition empty_store (retrieval_query : str) (n_results threshold : pyval)
  : outcome (list pyval) :=
  Return [].

(** A store that is out of reach. *)
Definition broken_store (retrieval_query : str) (n_results threshold : pyval)
  : outcome (list pyval) :=
  Raise (Fault (py "RuntimeError") (py "store unavailable")).

Definition verifier (llm : LLMAdapter)
  : str -> list pyval -> str -> str -> M log (dict pyval) :=
  EvidenceVerifier.verify_claim (EvidenceVerifier.__init__ llm []).

(** A corrector that leaves the answer as it is and tallies nothing. *)
Definition idle_corrector (llm : LLMAdapter) (original_answer : str)
    (verifications : list (dict pyval)) (query intent : str)
  : M log Correction.CorrectionResult :=
  ret {| Correction.cr_corrected_answer := original_answer;
         Correction.cr_supported_claims := 0;
         Correction.cr_contradicted_claims := 0 |}.

Definition default_intents : IntentClassifier.Config :=
  {| IntentClassifier.cfg_supported_intents := Some template_keys;
     IntentClassifier.cfg_default_intent := Some (py "事实查询") |}.

Definition default_retrieval : option Correction.RetrievalConfig :=
  Some {| Correction.max_retrieved_docs := Some (PInt 5);
          Correction.similarity_threshold :=
            Some (PFloat (FDec false 7 (-1))) |}.

(** The orchestrator over a given adapter and intent configuration, with
    the empty store. *)
Definition orchestrator (llm : LLMAdapter)
    (intent_config : IntentClassifier.Config) : Correction.t :=
  Correction._initialize_components llm intent_config default_retrieval
    empty_store verifier idle_corrector.

(** A stage that raises [e] when it is the one numbered [fail_at], and
    returns [value] with empty metadata otherwise. *)
Definition stage_outcome {A} (fail_at : nat) (e : exn) (index : nat)
    (value : A) : outcome (A * pyval) :=
  if Nat.eqb fail_at index then Raise e else Return (value, PDict []).

(** A pipeline whose stage number [fail_at] (from 0, in the order of the
    run; 7 is the final report) raises [e], and whose other stages go
    through. *)
Definition pipeline_failing_at (fail_at : nat) (e : exn) : Core.t :=
  {| Core._generate_initial_answer := fun _ _ =>
       stage_outcome fail_at e 0 (py "Python is a compiled language.");
     Core._classify_intent := fun _ =>
       stage_outcome fail_at e 1 (py "事实查询");
     Core._extract_claims := fun _ => stage_outcome fail_at e 2 [];
     Core._retrieve_evidence := fun _ _ _ => stage_outcome fail_at e 3 [];
     Core._verify_claims := fun _ _ _ _ => stage_outcome fail_at e 4 [];
     Core._correct_answer := fun _ _ _ _ =>
       stage_outcome fail_at e 5 (py "Python is an interpreted language.");
     Core._detect_hallucinations := fun _ _ _ _ =>
       stage_outcome fail_at e 6 PNone;
     Core._generate_final_report := fun _ _ _ _ _ _ _ _ =>
       if Nat.eqb fail_at 7 then Raise e else Return PNone |}.

(** The stage that is executing when stage number [k] raises. *)
Definition executing_stage (k : nat) : str :=
  nth k (Core.stage_names ++ [py "final_report"]) [].

End Scenarios.

From Stdlib Require DecimalN DecimalPos.

(** ** More of the Python fragment: truth values, [len], number formats *)

Module PyMore.

(** A double is zero when its numeral is, or when the numeral is so small
    that it rounds to zero (at most half the least subnormal, 2^-1075). *)
Definition float_is_zero (f : pyfloat) : bool :=
  match f with
  | FDec _ m e =>
    (m =? 0)%N
    || (if (e <? 0)%Z then (Z.of_N m * 2 ^ 1075 <=? 10 ^ (- e))%Z else false)
  | FInf _ | FNaN => false
  end.

(** The truth value of an object, as [if x:] takes it. *)
Definition truthy (v : pyval) : bool :=
  match v with
  | PNone => false
  | PBool b => b
  | PInt z => negb (z =? 0)%Z
  | PFloat f => negb (float_is_zero f)
  | PStr [] | PList [] | PDict [] => false
  | PStr _ | PList _ | PDict _ => true
  end.

(** [len(x)] *)
Definition len (x : pyval) : outcome nat :=
  match x with
  | PStr s => Return (List.length s)
  | PList l => Return (List.length l)
  | PDict d => Return (List.length d)
  | _ => Raise TypeError
  end.

Definition ValueError : exn :=
  Fault (py "ValueError") (py "Unknown format code 'f' for object of type 'str'").

Definition OverflowError : exn :=
  Fault (py "OverflowError") (py "int too large to convert to float").

(** Whether [f"{x:.2f}"] can be formatted: a float, and an integer or a
    boolean that converts to a float, can; a string has no format code
    [f]; the other objects take no format string.  An integer converts
    unless it rounds beyond the largest double. *)
Definition check_format_2f (x : pyval) : outcome unit :=
  match x with
  | PFloat _ | PBool _ => Return tt
  | PInt z =>
    if (Z.abs z <? 2 ^ 1024 - 2 ^ 970)%Z then Return tt
    else Raise OverflowError
  | PStr _ => Raise ValueError
  | PNone | PList _ | PDict _ => Raise TypeError
  end.

(** [x[:n]] *)
Definition slice_to (n : nat) (x : pyval) : outcome pyval :=
  match x with
  | PStr s => Return (PStr (firstn n s))
  | PList l => Return (PList (firstn n l))
  | _ => Raise TypeError
  end.

(** [d.get(k, default)] *)
Definition get_default {V} (k : str) (default : V) (d : dict V) : V :=
  match dict_get k d with Some v => v | None => default end.

End PyMore.

(** ** [src/correction/answer_corrector.py] *)

Module AnswerCorrector.
Import Gateway (response, error, text, error_message, get_error).
Import PyMore.

(** The four correction templates, by name. *)
Inductive template :=
| FactualTemplate | ComparisonTemplate | MethodTemplate | OpinionTemplate.

(** A line of the verification summary, kept by what it is formatted
    from. *)
Inductive summary_line :=
| ClaimLine (i : nat) (claim : pyval)
| VerdictLine (verdict confidence : pyval)
| SupportingLine (count : nat)
| ContradictingLine (count : nat)
| ReasoningLine (reasoning : pyval) (truncated : bool)
| SeparatorLine.

Inductive summary :=
| NothingVerified
| SummaryLines (lines : list summary_line).

(** A request: the template and what is substituted into it. *)
Record request := {
  rq_template : template;
  rq_query : str;
  rq_intent : str;
  rq_original_answer : str;
  rq_verification_summary : summary;
  rq_max_tokens : N;
  rq_temperature : pyfloat
}.

Definition LLMAdapter := nat -> request -> response.

Definition log := list request.

Record t := {
  llm : LLMAdapter;
  correction_templates : dict template
}.

Definition __init__ (llm_adapter : LLMAdapter) : t :=
  {| llm := llm_adapter;
     correction_templates :=
       [ (py "事实查询", FactualTemplate);
         (py "比较查询", ComparisonTemplate);
         (py "方法查询", MethodTemplate);
         (py "观点查询", OpinionTemplate) ] |}.

Definition call_with_retry (llm : LLMAdapter) (rq : request)
  : M log response :=
  fun l => (Return (llm (List.length l) rq), l ++ [rq]).

(** The lines for one verification, numbered [i]. *)
Definition summary_of (i : nat) (verification : dict pyval)
  : outcome (list summary_line) :=
  let claim :=
    get_default (py "claim") (PStr (py "声明" ++ str_of_N (N.of_nat i)))
                verification in
  let verdict := get_default (py "verdict") (PStr (py "UNVERIFIED"))
                             verification in
  let confidence := get_default (py "confidence") (PInt 0) verification in
  let reasoning := get_default (py "reasoning") (PStr (py "无详细推理"))
                               verification in
  match check_format_2f confidence with
  | Raise e => Raise e
  | Return _ =>
    let supporting_evidence :=
      get_default (py "supporting_evidence") (PList []) verification in
    let contradicting_evidence :=
      get_default (py "contradicting_evidence") (PList []) verification in
    let counted (v : pyval) (line : nat -> summary_line)
      : outcome (list summary_line) :=
      if truthy v then
        match len v with
        | Return n => Return [line n]
        | Raise e => Raise e
        end
      else Return [] in
    match counted supporting_evidence SupportingLine with
    | Raise e => Raise e
    | Return supporting =>
      match counted contradicting_evidence ContradictingLine with
      | Raise e => Raise e
      | Return contradicting =>
        match len reasoning with
        | Raise e => Raise e
        | Return n =>
          let reasoning_line :=
            if (100 <? n)%nat then
              match slice_to 100 reasoning with
              | Return r => Return (ReasoningLine r true)
              | Raise e => Raise e
              end
            else Return (ReasoningLine reasoning false) in
          match reasoning_line with
          | Raise e => Raise e
          | Return line =>
            Return ([ClaimLine i claim; VerdictLine verdict confidence]
                    ++ supporting ++ contradicting
                    ++ [line; SeparatorLine])
          end
        end
      end
    end
  end.

(** The loop over [enumerate(verifications, 1)]. *)
Fixpoint summary_loop (verifications : list (dict pyval)) (i : nat)
    (summary_parts : list summary_line) : outcome (list summary_line) :=
  match verifications with
  | [] => Return summary_parts
  | verification :: rest =>
    match summary_of i verification with
    | Raise e => Raise e
    | Return lines => summary_loop rest (S i) (summary_parts ++ lines)
    end
  end.

Definition _prepare_verification_summary (verifications : list (dict pyval))
  : outcome summary :=
  match verifications with
  | [] => Return NothingVerified
  | _ :: _ =>
    match summary_loop verifications 1 [] with
    | Return lines => Return (SummaryLines lines)
    | Raise e => Raise e
    end
  end.

(** [len([v for v in verifications if v.get('verdict') == verdict])] *)
Definition count_verdict (verdict : string) (verifications : list (dict pyval))
  : nat :=
  List.length
    (filter (fun v => match dict_get (py "verdict") v with
                      | Some (PStr s) => str_eqb s (py verdict)
                      | _ => false
                      end) verifications).

(** The dictionary [correct_answer] returns, without the usage counters
    of the response. *)
Record Correction := {
  corrected_answer : str;
  original_answer : str;
  query : str;
  intent : str;
  verifications_count : nat;
  supported_claims : nat;
  contradicted_claims : nat
}.

Definition c0_3 : pyfloat := FDec false 3 (-1).

Definition correct_answer (self : t) (original_answer : str)
    (verifications : list (dict pyval)) (query intent : str)
  : M log Correction :=
  let template :=
    get_default intent FactualTemplate (correction_templates self) in
  verification_summary <- lift (_prepare_verification_summary verifications) ;;
  response <-
    call_with_retry (llm self)
      {| rq_template := template; rq_query := query; rq_intent := intent;
         rq_original_answer := original_answer;
         rq_verification_summary := verification_summary;
         rq_max_tokens := 1200; rq_temperature := c0_3 |} ;;
  corrected_text <-
    (if get_error response then
       ret (py "纠正过程出错: "
            ++ match error_message response with
               | Some m => m
               | None => py "未知错误"
               end)
     else lift (field "text" (text response))) ;;
  ret {| corrected_answer := corrected_text;
         original_answer := original_answer;
         query := query;
         intent := intent;
         verifications_count := List.length verifications;
         supported_claims := count_verdict "SUPPORTED" verifications;
         contradicted_claims := count_verdict "CONTRADICTED" verifications |}.

End AnswerCorrector.

(** ** [llm_hallucination_correction/src/retriever.py]: [search] *)

Module VectorRetriever.

Section Search.

(** The floats of the store, with the two operations [search] applies to
    them: [1 - distance] and [similarity >= threshold]. *)
Variable F : Type.
Variable one_minus : F -> F.
Variable geb : F -> F -> bool.

(** What the collection answers to the one query embedding: the first
    row of [documents], of [metadatas] and of [distances]. *)
Record QueryResult := {
  documents : list str;
  metadatas : list (dict pyval);
  distances : list F
}.

Record Snippet := {
  snippet_text : str;
  source : pyval;
  similarity : F;
  rank : nat
}.

(** The loop over [enumerate(zip(documents, metadatas, distances))]. *)
Fixpoint search_loop (i : nat) (docs : list str) (metas : list (dict pyval))
    (dists : list F) (similarity_threshold : F) (snippets : list Snippet)
  : list Snippet :=
  match docs, metas, dists with
  | doc :: docs', metadata :: metas', distance :: dists' =>
    let similarity := one_minus distance in
    if geb similarity similarity_threshold then
      search_loop (S i) docs' metas' dists' similarity_threshold
        (snippets
         ++ [ {| snippet_text := doc;
                 source := PyMore.get_default (py "source")
                                              (PStr (py "unknown")) metadata;
                 similarity := similarity;
                 rank := i + 1 |} ])
    else search_loop (S i) docs' metas' dists' similarity_threshold snippets
  | _, _, _ => snippets
  end.

(** [search], given what the collection answers to the embedded query. *)
Definition search (results : QueryResult) (similarity_threshold : F)
  : list Snippet :=
  search_loop 0 (documents results) (metadatas results) (distances results)
              similarity_threshold [].

End Search.

End VectorRetriever.

(** ** [src/core/orchestrator.py]: [batch_process] *)

Module CoreBatch.

(** [batch_info]; the [progress] text is the two numbers around a
    slash. *)
Record BatchInfo := {
  index : nat;
  total : nat
}.

(** The loop over [enumerate(queries, 1)]. *)
Fixpoint batch_loop (self : Core.t) (queries : list str)
    (context : option str) (i total : nat)
    (results : list (Core.QueryResult * BatchInfo))
  : list (Core.QueryResult * BatchInfo) :=
  match queries with
  | [] => results
  | query :: rest =>
    let result := Core.process_query self query context in
    batch_loop self rest context (S i) total
               (results ++ [(result, {| index := i; total := total |})])
  end.

Definition batch_process (self : Core.t) (queries : list str)
    (context : option str) : list (Core.QueryResult * BatchInfo) :=
  batch_loop self queries context 1 (List.length queries) [].

End CoreBatch.

(** ** What the further statements need *)

Module Fixtures.
Import Gateway.

(** The request [_extract_comparison_entities] sends. *)
Definition comparison_request (query : str) : request :=
  {| rq_prompt := ComparisonEntitiesPrompt query;
     rq_max_tokens := 100;
     rq_temperature := t0_1 |}.

End Fixtures.

(** * Properties *)

(** ** Strings and dictionaries *)

Lemma str_eqb_spec (a b : str) : reflect (a = b) (str_eqb a b).
Proof.
  revert b; induction a as [|x a IH]; intros [|y b]; simpl;
    try (constructor; congruence).
  destruct (N.eqb_spec x y) as [->|N]; simpl.
  - destruct (IH b) as [->|N]; constructor; congruence.
  - constructor; congruence.
Qed.

Lemma str_eqb_refl (a : str) : str_eqb a a = true.
Proof. destruct (str_eqb_spec a a); congruence. Qed.

Lemma str_eqb_eq (a b : str) : str_eqb a b = true <-> a = b.
Proof. destruct (str_eqb_spec a b); split; congruence. Qed.

Lemma str_eqb_neq (a b : str) : str_eqb a b = false <-> a <> b.
Proof. destruct (str_eqb_spec a b); split; congruence. Qed.

Lemma str_in_spec (x : str) (xs : list str) : str_in x xs = true <-> In x xs.
Proof.
  unfold str_in; rewrite existsb_exists; split.
  - intros [y [Hy E]]. apply str_eqb_eq in E. now subst.
  - intros H. exists x. split; [assumption | apply str_eqb_refl].
Qed.




Lemma dict_get_set_other {V} (k k' : str) (v : V) (d : dict V) :
  k <> k' -> dict_get k (dict_set k' v d) = dict_get k d.
Proof.
  intros Hne. induction d as [|[k0 v0] d IH]; simpl.
  - destruct (str_eqb_spec k k'); congruence.
  - destruct (str_eqb_spec k' k0) as [->|H0]; simpl.
    + destruct (str_eqb_spec k k0); congruence.
    + destruct (str_eqb_spec k k0); [reflexivity | exact IH].
Qed.

Lemma dict_get_set_same {V} (k : str) (v : V) (d : dict V) :
  dict_get k (dict_set k v d) = Some v.
Proof.
  induction d as [|[k0 v0] d IH]; simpl.
  - now rewrite str_eqb_refl.
  - destruct (str_eqb_spec k k0) as [->|H0]; simpl.
    + now rewrite str_eqb_refl.
    + destruct (str_eqb_spec k k0); [congruence | exact IH].
Qed.

(** ** Claim extraction *)

Section Extraction.
Import Gateway ClaimExtractor.

Lemma fallback_extraction_nonempty (text : str) :
  _fallback_extraction text <> [].
Proof.
  unfold _fallback_extraction.
  destruct (fallback_loop _ _ _); discriminate.
Qed.

Lemma parse_claims_response_nonempty (response text : str) :
  _parse_claims_response response text <> [].
Proof.
  unfold _parse_claims_response.
  destruct (parse_loop _ _ _); [apply fallback_extraction_nonempty | discriminate].
Qed.

(** Whenever [extract_claims] returns, it returns at least one claim. *)
Lemma extract_claims_returns_nonempty (self : t) (text : str) (l l' : log)
    (claims : list Claim) :
  extract_claims self text l = (Return claims, l') -> claims <> [].
Proof.
  unfold extract_claims, bind, call_with_retry, lift, ret.
  destruct (_ || _).
  - intros [= <- _]. discriminate.
  - destruct (get_error _).
    + intros [= <- _]. apply fallback_extraction_nonempty.
    + destruct (Gateway.text _); simpl; [|discriminate].
      intros [= <- _]. apply parse_claims_response_nonempty.
Qed.

End Extraction.

Section ExtractionClaims.
Import Gateway ClaimExtractor Scenarios.

(** C8.  For every input text whose trimmed length is below 10 characters,
    [extract_claims] returns exactly one claim, whose text is the input
    itself, with confidence 1.0 and [atomic] true, and issues no request to
    the gateway: the log of requests is left as it was. *)
Theorem extract_claims_short_text (self : t) (text : str) (l : log) :
  (List.length (strip text) < 10)%nat ->
  exists c,
    extract_claims self text l = (Return [c], l)
    /\ claim_text c = text /\ confidence c = c1_0 /\ atomic c = true.
Proof.
  intros Hshort. exists (whole_text_claim text).
  unfold extract_claims.
  apply Nat.ltb_lt in Hshort. rewrite Hshort, orb_true_r.
  repeat split.
Qed.

Lemma extract_claims_short_text_witness :
  (List.length (strip (py "  Paris.  ")) < 10)%nat
  /\ exists c,
       extract_claims {| llm := constant_adapter (py "[CLAIM_1]: Paris") |}
                      (py "  Paris.  ") []
       = (Return [c], [])
       /\ claim_text c = py "  Paris.  " /\ confidence c = c1_0
       /\ atomic c = true.
Proof.
  split.
  - cbv. repeat constructor.
  - apply extract_claims_short_text. cbv. repeat constructor.
Defined.



(** The claims the loop of the fallback adds are the trimmed sentences
    longer than 10 characters, in order. *)
Lemma fallback_loop_texts (sentences : list str) (i : nat)
    (claims : list Claim) :
  map claim_text (fallback_loop sentences i claims)
  = map claim_text claims
    ++ filter (fun s => (10 <? List.length s)%nat) (map strip sentences).
Proof.
  revert i claims. induction sentences as [|s rest IH]; intros i claims; simpl.
  - now rewrite app_nil_r.
  - destruct (10 <? List.length (strip s))%nat.
    + rewrite IH, map_app, <- app_assoc. reflexivity.
    + apply IH.
Qed.

Lemma fallback_loop_marks (sentences : list str) (i : nat)
    (claims : list Claim) :
  Forall (fun c => confidence c = c0_7 /\ atomic c = false) claims ->
  Forall (fun c => confidence c = c0_7 /\ atomic c = false)
         (fallback_loop sentences i claims).
Proof.
  revert i claims. induction sentences as [|s rest IH]; intros i claims H; simpl.
  - assumption.
  - destruct (10 <? List.length (strip s))%nat; apply IH; [|assumption].
    apply Forall_app. split; [assumption|]. constructor; [|constructor].
    split; reflexivity.
Qed.

(** C7, as the code has it.  The sentence fallback splits the text on runs
    of terminal punctuation, trims each fragment and keeps exactly the
    fragments longer than 10 characters, in order, each as a claim with
    confidence 0.7 and [atomic] false; a fragment of 10 characters or fewer
    is discarded.  When no fragment is kept, the whole text is the one
    claim. *)
Theorem fallback_extraction_keeps_longer_than_ten (text : str) :
  let kept :=
    filter (fun s => (10 <? List.length s)%nat)
           (map strip (re_split_class terminal_punctuation text)) in
  match kept with
  | [] => _fallback_extraction text = [whole_text_claim text]
  | _ :: _ =>
    map claim_text (_fallback_extraction text) = kept
    /\ Forall (fun c => confidence c = c0_7 /\ atomic c = false)
              (_fallback_extraction text)
  end.
Proof.
  intros kept. unfold _fallback_extraction.
  pose proof (fallback_loop_texts
                (re_split_class terminal_punctuation text) 0 []) as Htexts.
  pose proof (@fallback_loop_marks
                (re_split_class terminal_punctuation text) 0 []
                (Forall_nil _)) as Hmarks.
  simpl in Htexts. fold kept in Htexts.
  destruct (fallback_loop _ 0 []) as [|c cs] eqn:Eloop.
  - simpl in Htexts. rewrite <- Htexts. reflexivity.
  - destruct kept as [|k ks]; [discriminate|]. split; assumption.
Qed.

(** C7, as the specification words it, fails: with the gateway in error,
    the fragment [abcdefghij] of the text [abcdefghij.] has 10 characters,
    so it is not shorter than 10, and yet no claim with that text comes
    out. *)
Lemma fallback_discards_ten_characters :
  ~ (forall (llm : LLMAdapter) (text fragment : str) claims l',
        extract_claims {| llm := llm |} text [] = (Return claims, l') ->
        get_error (llm 0%nat {| rq_prompt := ClaimExtractionPrompt text;
                                rq_max_tokens := 500;
                                rq_temperature := t0_1 |}) = true ->
        In fragment (re_split_class terminal_punctuation text) ->
        ~ (List.length fragment < 10)%nat ->
        exists c, In c claims /\ claim_text c = fragment
                  /\ confidence c = c0_7 /\ atomic c = false).
Proof.
  intros H.
  destruct (H (failing_adapter (py "timeout")) (py "abcdefghij.")
              (py "abcdefghij") _ _ eq_refl eq_refl)
    as (c & Hin & Htext & _).
  - left. reflexivity.
  - cbv. intros Hlt. repeat (apply le_S_n in Hlt). inversion Hlt.
  - vm_compute in Hin. destruct Hin as [<-|[]]. discriminate.
Qed.

End ExtractionClaims.

(** ** Intent classification *)

Section IntentClaims.
Import Gateway IntentClassifier Scenarios.

(** C9, as the code has it.  For every query, every configuration and
    every gateway response of a documented shape, [classify_intent]
    returns a member of the configured [supported_intents] or the
    configured [default_intent]; it is a member of the intent set whenever
    the default intent is one. *)
Theorem classify_intent_supported_or_default (self : t) (query : str)
    (l : log) :
  (forall n rq, readable (llm self n rq)) ->
  exists intent l',
    classify_intent self query l = (Return intent, l')
    /\ (In intent (supported_intents self) \/ intent = default_intent self)
    /\ (In (default_intent self) (supported_intents self) ->
        In intent (supported_intents self)).
Proof.
  intros Hshape.
  unfold classify_intent, bind, call_with_retry, lift, ret.
  match goal with |- context [llm self ?n ?rq] =>
    destruct (Hshape n rq) as [He | [t Ht]];
    destruct (get_error (llm self n rq)) eqn:E; try discriminate
  end.
  - do 2 eexists. split; [reflexivity|]. auto.
  - do 2 eexists. split; [reflexivity|]. auto.
  - rewrite Ht. simpl.
    destruct (str_in _ (supported_intents self)) eqn:Hin.
    + apply str_in_spec in Hin. do 2 eexists. split; [reflexivity|]. auto.
    + do 2 eexists. split; [reflexivity|]. auto.
Qed.

Lemma classify_intent_supported_or_default_witness :
  let self :=
    __init__ (constant_adapter (py "比较查询"))
             {| cfg_supported_intents :=
                  Some [py "事实查询"; py "比较查询"];
                cfg_default_intent := None |} in
  (forall n rq, readable (llm self n rq))
  /\ exists intent l',
       classify_intent self (py "Python or Rust?") [] = (Return intent, l')
       /\ (In intent (supported_intents self)
           \/ intent = default_intent self)
       /\ (In (default_intent self) (supported_intents self) ->
           In intent (supported_intents self)).
Proof.
  intros self. split.
  - intros n rq. right. eexists. reflexivity.
  - apply classify_intent_supported_or_default.
    intros n rq. right. eexists. reflexivity.
Defined.

(** C9, as the specification words it, fails: with the intent set
    configured as two intents and no default configured, the built-in
    default is outside the set, and it is what [classify_intent] returns
    when the gateway is in error. *)
Lemma classify_intent_outside_supported :
  ~ (forall (llm : LLMAdapter) (config : Config) (query : str) (l : log),
        (forall n rq, readable (llm n rq)) ->
        exists intent l',
          classify_intent (__init__ llm config) query l = (Return intent, l')
          /\ In intent (supported_intents (__init__ llm config))).
Proof.
  intros H.
  destruct (H (failing_adapter (py "timeout"))
              {| cfg_supported_intents :=
                   Some [py "比较查询"; py "方法查询"];
                 cfg_default_intent := None |}
              (py "Python or Rust?") [])
    as (intent & l' & Hrun & Hin).
  - intros n rq. left. reflexivity.
  - vm_compute in Hrun. injection Hrun as <- _.
    vm_compute in Hin. destruct Hin as [E|[E|[]]]; discriminate.
Qed.

Lemma no_template_for_unknown_intent (llm : LLMAdapter) (config : Config)
    (intent : str) :
  ~ In intent template_keys ->
  dict_get intent (intent_templates (__init__ llm config)) = None.
Proof.
  intros Hout. unfold __init__, intent_templates, dict_get.
  repeat match goal with
  | |- context [str_eqb intent ?k] =>
    destruct (str_eqb_spec intent k) as [->|_];
    [exfalso; apply Hout; unfold template_keys; simpl; tauto|]
  end.
  reflexivity.
Qed.

Lemma generate_retrieval_prompt_unknown_intent (llm : LLMAdapter)
    (config : Config) (query intent : str) (l : log) :
  ~ In intent template_keys ->
  generate_retrieval_prompt (__init__ llm config) query intent l
  = (Raise (KeyError intent), l).
Proof.
  intros Hout. unfold generate_retrieval_prompt.
  destruct (str_eqb_spec intent (py "比较查询")) as [->|_].
  - exfalso. apply Hout. unfold template_keys. simpl. tauto.
  - unfold bind, lift, getitem.
    now rewrite (no_template_for_unknown_intent llm config Hout).
Qed.

End IntentClaims.

(** ** The correction run *)

Section RunClaims.
Import Gateway ClaimExtractor Correction Scenarios.
Import EvidenceVerifier (EvidenceInfo).










End RunClaims.

Section UnknownIntent.
Import Gateway ClaimExtractor Correction Scenarios.

(** C10.  For every intent that is not one of the four keys of the
    built-in templates, [generate_retrieval_prompt] raises [KeyError]
    for that intent, whatever the query, and issues no request; and a run
    whose classification returns such an intent (which it does only for
    a configured [supported_intents] or [default_intent] value) is
    aborted by the evidence-retrieval stage: once extraction has
    returned, [process_correction] fails with a [KeyError] and nothing
    more is asked of the gateway. *)
Theorem unknown_intent_aborts_retrieval (llm : LLMAdapter)
    (intent_config : IntentClassifier.Config)
    (retrieval_config : option RetrievalConfig)
    (search : str -> pyval -> pyval -> outcome (list pyval))
    (verify : LLMAdapter -> str -> list pyval -> str -> str
              -> M log (dict pyval))
    (correct : LLMAdapter -> str -> list (dict pyval) -> str -> str
               -> M log CorrectionResult)
    (query original_answer intent : str) (claims : list Claim)
    (l l1 l2 : log) :
  let self := _initialize_components llm intent_config retrieval_config
                                     search verify correct in
  ~ In intent template_keys ->
  IntentClassifier.classify_intent (intent_classifier self) query l
  = (Return intent, l1) ->
  extract_claims (claim_extractor self) original_answer l1
  = (Return claims, l2) ->
  (forall q l0,
      IntentClassifier.generate_retrieval_prompt (intent_classifier self)
                                                 q intent l0
      = (Raise (KeyError intent), l0))
  /\ exists key,
       process_correction self query original_answer l
       = (Failed query original_answer (KeyError key), l2).
Proof.
  intros self Hout Hclassify Hextract.
  assert (Hprompt : forall q l0,
             IntentClassifier.generate_retrieval_prompt
               (intent_classifier self) q intent l0
             = (Raise (KeyError intent), l0)).
  { intros q l0. now apply generate_retrieval_prompt_unknown_intent. }
  split; [exact Hprompt|].
  pose proof (extract_claims_returns_nonempty _ _ _ Hextract) as Hne.
  unfold process_correction, run.
  unfold bind at 1. rewrite Hclassify.
  unfold bind at 1. rewrite Hextract.
  destruct claims as [|c rest]; [congruence|].
  unfold bind at 1. unfold _retrieve_evidence_for_claims. simpl retrieve_loop.
  destruct (id c) as [k|].
  - exists intent. unfold bind at 1. simpl.
    unfold bind at 1. unfold _build_retrieval_query.
    unfold bind at 1. rewrite Hprompt. reflexivity.
  - exists (py "id"). reflexivity.
Qed.

Lemma unknown_intent_aborts_retrieval_witness :
  let config :=
    {| IntentClassifier.cfg_supported_intents := Some [py "其他"];
       IntentClassifier.cfg_default_intent := Some (py "其他") |} in
  let self := orchestrator (failing_adapter (py "timeout")) config in
  ~ In (py "其他") template_keys
  /\ (forall q l0,
         IntentClassifier.generate_retrieval_prompt (intent_classifier self)
                                                    q (py "其他") l0
         = (Raise (KeyError (py "其他")), l0))
  /\ exists key l2,
       process_correction self (py "What is Python?")
                          (py "Python is a compiled language.") []
       = (Failed (py "What is Python?") (py "Python is a compiled language.")
                 (KeyError key), l2).
Proof.
  intros config self.
  assert (Hout : ~ In (py "其他") template_keys).
  { vm_compute. intros [E|[E|[E|[E|[]]]]]; discriminate. }
  split; [exact Hout|].
  destruct (@unknown_intent_aborts_retrieval
              (failing_adapter (py "timeout")) config default_retrieval
              empty_store verifier idle_corrector
              (py "What is Python?") (py "Python is a compiled language.")
              (py "其他") _ [] _ _ Hout eq_refl eq_refl)
    as [Hprompt [key Hrun]].
  split; [exact Hprompt|]. exists key. eexists. exact Hrun.
Defined.

End UnknownIntent.

(** ** Claim verification *)

Section VerificationClaims.
Import Gateway ClaimExtractor EvidenceVerifier Scenarios.

Ltac keys_differ := intros E; vm_compute in E; discriminate.


(** C3, on the code.  When the gateway answers with the documented error
    result, [{error: True, text: diagnostic}], [verify_claim] raises
    [KeyError('error_message')]: the error verification is never built. *)
Theorem verify_claim_error_response_raises (diagnostic claim : str)
    (ev : list pyval) (query intent : str) (config : dict pyval) (l : log) :
  verify_claim (__init__ (failing_adapter diagnostic) config)
               claim ev query intent l
  = (Raise (KeyError (py "error_message")),
     l ++ [verification_request claim ev query intent]).
Proof. reflexivity. Qed.

(** What the specification asks for in that case is what
    [_create_error_result] builds; it is reached only with a response that
    has the key [error_message]. *)
Lemma verify_claim_error_message (self : EvidenceVerifier.t)
    (claim message : str) (ev : list pyval) (query intent : str) (l : log) :
  let r := llm self (List.length l)
               (verification_request claim ev query intent) in
  get_error r = true -> error_message r = Some message ->
  fst (verify_claim self claim ev query intent l)
  = Return (_create_error_result claim message).
Proof.
  intros r He Hm. unfold verify_claim, bind, call_with_retry, lift, ret.
  fold (verification_request claim ev query intent). fold r.
  rewrite He, Hm. reflexivity.
Qed.

Lemma ensure_lists_get_other (k : str) (fields : list str) (d : dict pyval) :
  ~ In k fields -> dict_get k (ensure_lists fields d) = dict_get k d.
Proof.
  revert d. induction fields as [|f rest IH]; intros d Hout; simpl.
  - reflexivity.
  - assert (Hne : k <> f) by (intros ->; apply Hout; now left).
    assert (Hrest : ~ In k rest) by (intros H; apply Hout; now right).
    destruct (dict_get f d) as [[]|]; rewrite IH by assumption;
      try reflexivity; now apply dict_get_set_other.
Qed.

Lemma missing_field_object (d : dict pyval) :
  missing_field [py "verdict"; py "confidence"] (PDict d)
  = Return (negb (dict_has (py "verdict") d
                  && dict_has (py "confidence") d)).
Proof.
  unfold missing_field, py_in.
  destruct (dict_has (py "verdict") d); [|reflexivity].
  destruct (dict_has (py "confidence") d); reflexivity.
Qed.

Lemma parse_object_verdict (d : dict pyval) (response claim intent : str)
    (v c : pyval) :
  decode_response response = Some (PDict d) ->
  dict_get (py "verdict") d = Some v ->
  dict_get (py "confidence") d = Some c ->
  exists r,
    _parse_verification_response response claim intent = Return r
    /\ dict_get (py "verdict") r = Some v
    /\ dict_get (py "confidence") r = Some c.
Proof.
  intros Hdec Hv Hc. unfold _parse_verification_response.
  rewrite Hdec, missing_field_object. unfold dict_has. rewrite Hv, Hc.
  cbv beta iota delta [negb andb].
  eexists. split; [reflexivity|].
  split.
  - rewrite ensure_lists_get_other
      by (intros [E|[E|[]]]; revert E; keys_differ).
    rewrite !dict_get_set_other by keys_differ. assumption.
  - rewrite ensure_lists_get_other
      by (intros [E|[E|[]]]; revert E; keys_differ).
    rewrite !dict_get_set_other by keys_differ. assumption.
Qed.

Lemma parse_object_incomplete (d : dict pyval) (response claim intent : str) :
  decode_response response = Some (PDict d) ->
  dict_get (py "verdict") d = None \/ dict_get (py "confidence") d = None ->
  _parse_verification_response response claim intent
  = Return (_create_fallback_result claim intent response).
Proof.
  intros Hdec Hmiss. unfold _parse_verification_response.
  rewrite Hdec, missing_field_object. unfold dict_has.
  destruct Hmiss as [-> | ->]; [reflexivity|].
  destruct (dict_get (py "verdict") d); reflexivity.
Qed.

Lemma missing_field_raises (fields : list str) (v : pyval) (e : exn) :
  missing_field fields v = Raise e -> e = TypeError.
Proof.
  induction fields as [|f rest IH]; simpl; [discriminate|].
  destruct (py_in f v) as [[]|e'] eqn:Hin.
  - exact IH.
  - discriminate.
  - intros [= <-]. destruct v; simpl in Hin; congruence.
Qed.

(** A decoded value that is not an object is either taken as lacking a
    field or refused when the claim is stored into it. *)
Lemma parse_non_object (v : pyval) (response claim intent : str) :
  decode_response response = Some v ->
  match v with PDict _ => False | _ => True end ->
  _parse_verification_response response claim intent
  = Return (_create_fallback_result claim intent response)
  \/ _parse_verification_response response claim intent = Raise TypeError.
Proof.
  intros Hdec Hv. unfold _parse_verification_response. rewrite Hdec.
  destruct (missing_field _ v) as [[]|e] eqn:Hm.
  - now left.
  - right. destruct v; try reflexivity. contradiction.
  - right. now rewrite (missing_field_raises _ _ Hm).
Qed.

Lemma deliver_object_run (v : pyval) (stack : list frame) (st : pstate) :
  bottom_obj stack = true -> deliver v stack = Some st -> object_run st.
Proof.
  destruct stack as [|[acc|d [k|]] s]; simpl; try discriminate.
  - intros H [= <-]. simpl. destruct s; [discriminate | assumption].
  - intros H [= <-]. simpl. destruct s; [reflexivity | assumption].
Qed.

Lemma close_object_run (t : token) (stack : list frame) (st : pstate) :
  bottom_obj stack = true -> close_step t stack = Some st -> object_run st.
Proof.
  destruct t; try discriminate; destruct stack as [|[acc|d [k|]] s];
    try discriminate; simpl.
  - destruct s as [|f s]; [intros _ [= <-]; simpl; eauto|].
    intros H. now apply deliver_object_run.
  - destruct s as [|f s]; [discriminate|].
    intros H. now apply deliver_object_run.
Qed.

Lemma pstep_object_run (st st' : pstate) (t : token) :
  object_run st -> pstep st t = Some st' -> object_run st'.
Proof.
  destruct st as [mode stack]. unfold pstep.
  assert (Hvalue : bottom_obj stack = true ->
                   value_step t stack = Some st' -> object_run st').
  { intros H. destruct t; simpl; try discriminate.
    - intros [= <-]. simpl. destruct stack; [discriminate | assumption].
    - intros [= <-]. simpl. destruct stack; [discriminate | assumption].
    - now apply deliver_object_run.
    - destruct (atom_value lexeme); [|discriminate].
      now apply deliver_object_run. }
  assert (Hkey : bottom_obj stack = true ->
                 key_step t stack = Some st' -> object_run st').
  { intros H. destruct t; try discriminate.
    destruct stack as [|[acc|d [k|]] s0]; try discriminate.
    intros [= <-]. exact H. }
  destruct mode; simpl; intros H.
  - now apply Hvalue.
  - destruct t; try (now apply Hvalue). now apply close_object_run.
  - destruct t; try (now apply Hkey). now apply close_object_run.
  - now apply Hkey.
  - destruct t; try discriminate. intros [= <-]. exact H.
  - destruct t; try (now apply close_object_run).
    destruct stack as [|[acc|d k] s0]; try discriminate;
      intros [= <-]; exact H.
  - discriminate.
Qed.

Lemma parse_object_run (ts : list token) (st st' : pstate) :
  object_run st -> parse st ts = Some st' -> object_run st'.
Proof.
  revert st. induction ts as [|t ts IH]; intros st H; simpl.
  - now intros [= <-].
  - destruct (pstep st t) as [st1|] eqn:Hstep; [|discriminate].
    apply IH. exact (@pstep_object_run st st1 t H Hstep).
Qed.

(** A text that starts with an opening brace decodes to an object, if it
    decodes at all. *)
Lemma json_loads_object (r : str) (v : pyval) :
  json_loads (123%N :: r) = Some v -> exists d, v = PDict d.
Proof.
  unfold json_loads.
  change (lex LIdle (123%N :: r))
    with (match lex LIdle r with
          | None => None
          | Some rest => Some (TLBrace :: rest)
          end).
  destruct (lex LIdle r) as [rest|]; [|discriminate].
  change (parse (MValue, []) (TLBrace :: rest))
    with (parse (MKeyOrClose, [FObj [] None]) rest).
  destruct (parse _ rest) as [[mode stack]|] eqn:Hparse; [|discriminate].
  destruct mode; try discriminate. intros [= <-].
  exact (@parse_object_run rest (MKeyOrClose, [FObj [] None])
                           _ eq_refl Hparse).
Qed.

Lemma search_braces_head (s j : str) :
  search_braces s = Some j -> exists r, j = 123%N :: r.
Proof.
  induction s as [|x s IH]; simpl; [discriminate|].
  destruct (N.eqb_spec x 123) as [->|_]; [|exact IH].
  destruct (upto_last 125%N s); [|discriminate].
  intros [= <-]. eauto.
Qed.

(** When the brace pattern matches, the decoded value is an object. *)
Lemma braces_decode_to_object (response : str) (j : str) (v : pyval) :
  search_braces response = Some j ->
  decode_response response = Some v -> exists d, v = PDict d.
Proof.
  intros Hj. unfold decode_response. rewrite Hj.
  destruct (@search_braces_head response j Hj) as [r ->].
  apply json_loads_object.
Qed.

(** So [verify_claim] on a text in which the brace pattern matches never
    raises: it returns the fallback or the decoded object. *)
Lemma parse_braces_returns (response j claim intent : str) :
  search_braces response = Some j ->
  exists res, _parse_verification_response response claim intent = Return res.
Proof.
  intros Hj. unfold _parse_verification_response.
  destruct (decode_response response) as [v|] eqn:Hdec; [|eauto].
  destruct (@braces_decode_to_object response j v Hj Hdec) as [d ->].
  rewrite missing_field_object. destruct (negb _); eauto.
Qed.

(** C2, as the code has it.  For every gateway response that is not an
    error and carries the text [t]: when no JSON value can be decoded from
    [t], or the decoded object lacks [verdict] or [confidence],
    [verify_claim] returns the fallback verification, with verdict
    UNVERIFIED and confidence 0.3; when an object with both fields is
    decoded, [verify_claim] returns a verification whose verdict is the
    value the model wrote, unchanged, whether or not it is one of the
    four. *)
Theorem verify_claim_verdict_as_written (self : EvidenceVerifier.t)
    (claim : str) (ev : list pyval) (query intent t : str) (l : log) :
  let r := llm self (List.length l)
               (verification_request claim ev query intent) in
  get_error r = false -> Gateway.text r = Some t ->
  dict_get (py "verdict") (_create_fallback_result claim intent t)
  = Some UNVERIFIED
  /\ dict_get (py "confidence") (_create_fallback_result claim intent t)
     = Some f0_3
  /\ match decode_response t with
     | None =>
       fst (verify_claim self claim ev query intent l)
       = Return (_create_fallback_result claim intent t)
     | Some (PDict d) =>
       match dict_get (py "verdict") d, dict_get (py "confidence") d with
       | Some v, Some _ =>
         exists res,
           fst (verify_claim self claim ev query intent l) = Return res
           /\ dict_get (py "verdict") res = Some v
       | _, _ =>
         fst (verify_claim self claim ev query intent l)
         = Return (_create_fallback_result claim intent t)
       end
     | Some _ =>
       fst (verify_claim self claim ev query intent l)
       = Return (_create_fallback_result claim intent t)
       \/ fst (verify_claim self claim ev query intent l) = Raise TypeError
     end.
Proof.
  intros r He Ht. split; [reflexivity|]. split; [reflexivity|].
  assert (Hrun : fst (verify_claim self claim ev query intent l)
                 = _parse_verification_response t claim intent).
  { unfold verify_claim, bind, call_with_retry, lift, ret, field.
    fold (verification_request claim ev query intent). fold r.
    rewrite He, Ht. cbv beta iota.
    destruct (_parse_verification_response t claim intent); reflexivity. }
  rewrite Hrun.
  destruct (decode_response t) as [v|] eqn:Hdec.
  - destruct v as [| b | z | f | s | xs | d];
      try (apply (@parse_non_object _ t claim intent Hdec); exact I).
    destruct (dict_get (py "verdict") d) as [vd|] eqn:Hv.
    + destruct (dict_get (py "confidence") d) as [c|] eqn:Hc.
      * destruct (@parse_object_verdict d t claim intent _ _ Hdec Hv Hc)
          as (res & Hres & Hverdict & _).
        exists res. split; assumption.
      * apply (@parse_object_incomplete d t claim intent Hdec). now right.
    + apply (@parse_object_incomplete d t claim intent Hdec). now left.
  - unfold _parse_verification_response. now rewrite Hdec.
Qed.

End VerificationClaims.

Section VerdictExamples.
Import Gateway ClaimExtractor EvidenceVerifier Scenarios.

Lemma verify_claim_verdict_as_written_witness :
  let self := __init__ (constant_adapter (verdict_json (py "MAYBE"))) [] in
  let claim := py "Python is compiled" in
  let r := llm self 0 (verification_request claim [] (py "q") (py "事实查询")) in
  get_error r = false
  /\ Gateway.text r = Some (verdict_json (py "MAYBE"))
  /\ exists res,
       fst (verify_claim self claim [] (py "q") (py "事实查询") [])
       = Return res
       /\ dict_get (py "verdict") res = Some (PStr (py "MAYBE")).
Proof.
  intros self claim r. split; [reflexivity|]. split; [reflexivity|].
  destruct (@verify_claim_verdict_as_written self claim [] (py "q")
              (py "事实查询") (verdict_json (py "MAYBE")) []
              eq_refl eq_refl) as (_ & _ & H).
  vm_compute in H. vm_compute. exact H.
Defined.

(** C2, as the specification words it, fails: the model writes the
    verdict MAYBE with a confidence, and the verification that
    [verify_claim] returns has the verdict MAYBE, which is none of the
    four. *)
Lemma verify_claim_returns_foreign_verdict :
  ~ (forall (self : EvidenceVerifier.t) (claim : str) (ev : list pyval)
            (query intent t : str) (l : log),
        Gateway.text (llm self (List.length l)
                          (verification_request claim ev query intent))
        = Some t ->
        get_error (llm self (List.length l)
                       (verification_request claim ev query intent))
        = false ->
        exists res v,
          fst (verify_claim self claim ev query intent l) = Return res
          /\ dict_get (py "verdict") res = Some v /\ In v verdicts).
Proof.
  intros H.
  destruct (H (__init__ (constant_adapter (verdict_json (py "MAYBE"))) [])
              (py "Python is compiled") [] (py "q") (py "事实查询")
              (verdict_json (py "MAYBE")) [] eq_refl eq_refl)
    as (res & v & Hrun & Hv & Hin).
  vm_compute in Hrun. injection Hrun as <-.
  vm_compute in Hv. injection Hv as <-.
  vm_compute in Hin. destruct Hin as [E|[E|[E|[E|[]]]]]; discriminate.
Qed.

End VerdictExamples.

Section BatchClaims.
Import Gateway ClaimExtractor EvidenceVerifier Scenarios.







End BatchClaims.

(** ** The pipeline run of [src/core/orchestrator.py] *)

Section PipelineClaims.
Import Core Scenarios.

(** Whatever the stages do, [process_query] returns; a stage that raises
    is reported with [success] false and the exception it raised. *)
Lemma process_query_contains_failure (self : Core.t) (query : str)
    (context : option str) :
  (exists results steps,
      run self query context [] = (Return results, steps)
      /\ process_query self query context
         = Completed query results steps (dict_keys steps))
  \/ (exists e steps,
         run self query context [] = (Raise e, steps)
         /\ process_query self query context
            = Failed query e (_identify_error_step steps)
         /\ success (process_query self query context) = false).
Proof.
  unfold process_query.
  destruct (run self query context []) as [[results|e] steps].
  - left. eauto.
  - right. exists e, steps. auto.
Qed.

(** The step reported for a failure is the last one that was recorded,
    that is the stage before the one that raised, and [initialization]
    when the first stage raised. *)
Lemma error_step_is_previous_stage (k : nat) (e : exn) (query : str)
    (context : option str) :
  (k < 8)%nat ->
  process_query (pipeline_failing_at k e) query context
  = Failed query e
           (match k with
            | O => py "initialization"
            | S j => executing_stage j
            end).
Proof.
  intros Hk.
  do 8 (destruct k as [|k]; [reflexivity|]). lia.
Qed.

(** The same for every pipeline: when the first two stages return and
    claim extraction raises, the step reported is the second. *)
Lemma error_step_after_two_stages (self : Core.t) (query : str)
    (context : option str) (answer intent : str) (m1 m2 : pyval) (e : exn) :
  _generate_initial_answer self query context = Return (answer, m1) ->
  _classify_intent self query = Return (intent, m2) ->
  _extract_claims self answer = Raise e ->
  process_query self query context
  = Failed query e (py "intent_classification").
Proof.
  intros H1 H2 H3.
  unfold process_query, run, stage, bind, lift, ret, record_step.
  rewrite H1. cbv beta iota delta [fst snd]. rewrite H2.
  cbv beta iota delta [fst snd]. rewrite H3. reflexivity.
Qed.

(** C4, on the code.  When the claim-extraction stage raises, the run
    does return a failure that records the exception, but the stage it
    names is [intent_classification], the last stage that completed, and
    not [claim_extraction], the stage that was executing. *)
Theorem error_step_names_completed_stage (e : exn) (query : str)
    (context : option str) :
  process_query (pipeline_failing_at 2 e) query context
  = Failed query e (py "intent_classification")
  /\ success (process_query (pipeline_failing_at 2 e) query context) = false
  /\ executing_stage 2 = py "claim_extraction"
  /\ py "intent_classification" <> executing_stage 2.
Proof.
  split; [reflexivity|]. split; [reflexivity|]. split; [reflexivity|].
  intros E. vm_compute in E. discriminate.
Qed.

End PipelineClaims.

(** ** Two further observations on the code *)

Section Observations.
Import Gateway ClaimExtractor EvidenceVerifier Scenarios.

(** When the model gives two lines the same number, the two claims get
    the same id, and the evidence map has one entry for both. *)
Lemma repeated_number_shares_entry :
  let response := py "[CLAIM_1]: Python is interpreted" ++ [10%N]
                  ++ py "[CLAIM_01]: Python appeared in 1991" in
  let claims := _parse_claims_response response (py "Python.") in
  map id claims = [Some (py "claim_1"); Some (py "claim_1")]
  /\ exists evidence_map l,
       Correction._retrieve_evidence_for_claims
         (orchestrator helpful_adapter default_intents) (py "q") claims
         (py "事实查询") []
       = (Return evidence_map, l)
       /\ dict_keys evidence_map = [py "claim_1"].
Proof.
  split; [reflexivity|]. vm_compute. do 2 eexists. split; reflexivity.
Qed.

(** The claim with an empty evidence list gets the verdict the model
    gives it. *)
Lemma empty_evidence_verdict_from_model :
  let c := {| id := Some (py "claim_1"); claim_text := py "Python is old";
              confidence := c0_9; atomic := true;
              original_position := Some 0 |} in
  let info := {| ev_claim := py "Python is old"; retrieval_query := py "q";
                 evidence := [] |} in
  exists v l,
    batch_verify (__init__ helpful_adapter []) [c] [(py "claim_1", info)]
                 (py "q") (py "事实查询") []
    = (Return [v], l)
    /\ dict_get (py "verdict") v = Some (PStr (py "SUPPORTED"))
    /\ List.length l = 1%nat.
Proof.
  vm_compute. do 2 eexists. repeat split.
Qed.

(** A store that is out of reach makes the run fail. *)
Lemma broken_store_fails_run :
  exists e l,
    Correction.process_correction
      (Correction._initialize_components helpful_adapter default_intents
         default_retrieval broken_store verifier idle_corrector)
      (py "What is Python?") (py "Python is a compiled language.") []
    = (Correction.Failed (py "What is Python?")
                         (py "Python is a compiled language.") e, l).
Proof.
  vm_compute. do 2 eexists. reflexivity.
Qed.

End Observations.

(** * Further properties of the code *)

(** ** Text *)

Section TextFacts.

Lemma starts_with_prefix (p s : str) :
  starts_with p s = true <-> exists r, s = p ++ r.
Proof.
  revert s. induction p as [|x p IH]; intros s; simpl.
  - split; eauto.
  - destruct s as [|y s].
    + split; [discriminate | intros [r H]; discriminate].
    + rewrite andb_true_iff, N.eqb_eq, IH. split.
      * intros [-> [r ->]]. eauto.
      * intros [r [= -> ->]]. eauto.
Qed.

Lemma find_from_found (sub s : str) (i p : nat) :
  find_from sub s i = Some p ->
  exists before after,
    s = before ++ sub ++ after /\ p = i + List.length before
    /\ forall j, (j < List.length before)%nat ->
                 starts_with sub (skipn j s) = false.
Proof.
  revert i. induction s as [|c s IH]; intros i; simpl.
  - destruct (starts_with sub []) eqn:Hsub; [|discriminate].
    intros [= <-]. apply starts_with_prefix in Hsub as [r Hr].
    exists [], r. repeat split; simpl; [assumption | lia | ].
    intros j Hj. inversion Hj.
  - destruct (starts_with sub (c :: s)) eqn:Hsub.
    + intros [= <-]. apply starts_with_prefix in Hsub as [r Hr].
      exists [], r. repeat split; simpl; [assumption | lia | ].
      intros j Hj. inversion Hj.
    + intros Hfind. apply IH in Hfind as (before & after & -> & -> & Hmin).
      exists (c :: before), after. repeat split; simpl; [lia|].
      intros [|j] Hj; [exact Hsub|]. apply Hmin. lia.
Qed.

Lemma find_from_missing (sub s : str) (i : nat) :
  find_from sub s i = None ->
  forall before after, s <> before ++ sub ++ after.
Proof.
  revert i. induction s as [|c s IH]; intros i; simpl.
  - destruct (starts_with sub []) eqn:Hsub; [discriminate|].
    intros _ before after H. destruct before; simpl in H.
    + assert (starts_with sub [] = true)
        by (apply starts_with_prefix; eauto). congruence.
    + discriminate.
  - destruct (starts_with sub (c :: s)) eqn:Hsub; [discriminate|].
    intros Hfind before after H. destruct before as [|b before]; simpl in H.
    + assert (starts_with sub (c :: s) = true)
        by (apply starts_with_prefix; eauto). congruence.
    + injection H as _ H. exact (IH _ Hfind _ _ H).
Qed.

Lemma lstrip_split (s : str) :
  exists spaces,
    s = spaces ++ lstrip s /\ Forall (fun c => is_space c = true) spaces.
Proof.
  induction s as [|c s (spaces & Hs & Hall)]; simpl.
  - exists []. split; [reflexivity | constructor].
  - destruct (is_space c) eqn:Hc.
    + exists (c :: spaces). split; [simpl; congruence | now constructor].
    + exists []. split; [reflexivity | constructor].
Qed.

Lemma lstrip_head (s : str) :
  match lstrip s with [] => True | c :: _ => is_space c = false end.
Proof.
  induction s as [|c s IH]; simpl; [exact I|].
  destruct (is_space c) eqn:Hc; [exact IH | exact Hc].
Qed.

Lemma lstrip_fixed (s : str) :
  match s with [] => True | c :: _ => is_space c = false end ->
  lstrip s = s.
Proof. destruct s as [|c s]; simpl; [reflexivity|]. now intros ->. Qed.

Lemma lstrip_app_keep (s : str) (c : N) (r : str) :
  is_space c = false -> lstrip (s ++ c :: r) = lstrip s ++ c :: r
  \/ (lstrip s = [] /\ lstrip (s ++ c :: r) = c :: r).
Proof.
  intros Hc. induction s as [|x s IH]; simpl.
  - rewrite Hc. now left.
  - destruct (is_space x); [exact IH | now left].
Qed.

(** [strip] leaves a text that neither starts nor ends with white space. *)
Lemma strip_ends (s : str) :
  match strip s with [] => True | c :: _ => is_space c = false end
  /\ match rev (strip s) with [] => True | c :: _ => is_space c = false end.
Proof.
  unfold strip, rstrip. split.
  - pose proof (lstrip_head s) as Hhead.
    destruct (lstrip s) as [|c u] eqn:Hu; [exact I|].
    (* the head [c] is not a space, so trimming the right end keeps it *)
    assert (Hkeep : exists w, rev (lstrip (rev (c :: u))) = c :: w).
    { destruct (lstrip_split (rev (c :: u))) as (spaces & Hsplit & Hall).
      pose proof (lstrip_head (rev (c :: u))) as Hh.
      destruct (lstrip (rev (c :: u))) as [|y v] eqn:Hv.
      - exfalso. rewrite app_nil_r in Hsplit.
        assert (Hin : In c spaces)
          by (rewrite <- Hsplit, <- in_rev; now left).
        rewrite Forall_forall in Hall. specialize (Hall _ Hin). congruence.
      - assert (Hrev : c :: u = rev (y :: v) ++ rev spaces)
          by (rewrite <- rev_app_distr, <- Hsplit, rev_involutive; reflexivity).
        destruct (rev (y :: v)) as [|z w] eqn:Hz.
        + apply (f_equal (@rev N)) in Hz. rewrite rev_involutive in Hz.
          discriminate.
        + simpl in Hrev. injection Hrev as <- _. eauto. }
    destruct Hkeep as [w ->]. exact Hhead.
  - rewrite rev_involutive. apply lstrip_head.
Qed.

Lemma strip_fixed (s : str) :
  match s with [] => True | c :: _ => is_space c = false end ->
  match rev s with [] => True | c :: _ => is_space c = false end ->
  strip s = s.
Proof.
  intros Hhead Hlast. unfold strip, rstrip.
  rewrite (lstrip_fixed s Hhead), (lstrip_fixed (rev s) Hlast).
  apply rev_involutive.
Qed.

(** [s.strip().strip() == s.strip()] *)
Lemma strip_idempotent (s : str) : strip (strip s) = strip s.
Proof. destruct (strip_ends s). now apply strip_fixed. Qed.

Lemma lstrip_Forall (P : N -> Prop) (s : str) :
  Forall P s -> Forall P (lstrip s).
Proof.
  induction 1 as [|c s Hc Hs IH]; simpl; [constructor|].
  destruct (is_space c); [exact IH | now constructor].
Qed.

Lemma strip_Forall (P : N -> Prop) (s : str) :
  Forall P s -> Forall P (strip s).
Proof.
  intros H. unfold strip, rstrip.
  apply Forall_rev, lstrip_Forall, Forall_rev, lstrip_Forall, H.
Qed.

Lemma strip_length (s : str) : (List.length (strip s) <= List.length s)%nat.
Proof.
  assert (Hl : forall u, (List.length (lstrip u) <= List.length u)%nat).
  { induction u as [|c u IH]; simpl; [lia|].
    destruct (is_space c); simpl; lia. }
  unfold strip, rstrip. rewrite length_rev.
  etransitivity; [apply Hl|]. rewrite length_rev. apply Hl.
Qed.

(** The pieces [re.split] gives hold no separator. *)
Lemma split_runs_pieces (sep : N -> bool) (s cur : str) (in_run : bool) :
  Forall (fun c => sep c = false) cur ->
  Forall (Forall (fun c => sep c = false)) (split_runs sep s cur in_run).
Proof.
  revert cur in_run. induction s as [|c s IH]; intros cur in_run Hcur; simpl.
  - constructor; [now apply Forall_rev | constructor].
  - destruct (sep c) eqn:Hc.
    + destruct in_run; [apply IH; constructor|].
      constructor; [now apply Forall_rev | apply IH; constructor].
    + apply IH. now constructor.
Qed.

(** A text without separators is its own single piece. *)
Lemma split_runs_whole (sep : N -> bool) (s cur : str) :
  Forall (fun c => sep c = false) s ->
  split_runs sep s cur false = [rev cur ++ s].
Proof.
  revert cur. induction s as [|c s IH]; intros cur Hs; simpl.
  - now rewrite app_nil_r.
  - inversion Hs as [|? ? Hc Hs']; subst. rewrite Hc, IH by assumption.
    simpl. now rewrite <- app_assoc.
Qed.

Lemma bytes_of_inj (a b : string) : bytes_of a = bytes_of b -> a = b.
Proof.
  revert b. induction a as [|x a IH]; intros [|y b]; simpl;
    try discriminate; [reflexivity|].
  intros [= Hxy Hab]. f_equal; [|now apply IH].
  rewrite <- (ascii_N_embedding x), <- (ascii_N_embedding y). now f_equal.
Qed.

Lemma str_of_N_inj (n m : N) : str_of_N n = str_of_N m -> n = m.
Proof.
  unfold str_of_N. intros H. apply bytes_of_inj in H.
  assert (Hnil : forall k, N.to_uint k <> Decimal.Nil).
  { intros [|p]; simpl; [discriminate|].
    apply DecimalPos.Unsigned.to_uint_nonnil. }
  apply DecimalN.Unsigned.to_uint_inj.
  pose proof (DecimalString.NilZero.usu _ (Hnil n)) as Hn.
  pose proof (DecimalString.NilZero.usu _ (Hnil m)) as Hm.
  rewrite H in Hn. congruence.
Qed.

End TextFacts.

(** ** Claim extraction, further *)

Section ExtractionFurther.
Import Gateway ClaimExtractor Scenarios.

Lemma claim_id_inj (n m : N) : claim_id n = claim_id m -> n = m.
Proof.
  unfold claim_id. intros H. apply app_inv_head in H. now apply str_of_N_inj.
Qed.

Lemma fallback_loop_new (sentences : list str) :
  forall (i : nat) (claims : list Claim),
  exists new,
    fallback_loop sentences i claims = claims ++ new
    /\ Forall (fun c =>
                 exists p, (i <= p)%nat /\ original_position c = Some p
                           /\ id c = Some (claim_id (N.of_nat (p + 1)))
                           /\ confidence c = c0_7 /\ atomic c = false)
              new
    /\ NoDup (map id new).
Proof.
  induction sentences as [|s rest IH]; intros i claims; simpl.
  - exists []. rewrite app_nil_r. repeat split; constructor.
  - destruct (10 <? List.length (strip s))%nat.
    + destruct (IH (S i) (claims ++ [ {|
          id := Some (claim_id (N.of_nat (i + 1)));
          claim_text := strip s; confidence := c0_7; atomic := false;
          original_position := Some i |} ])) as (new & -> & Hall & Hnd).
      eexists (_ :: new). rewrite <- app_assoc. split; [reflexivity|]. split.
      * constructor.
        -- exists i. simpl. repeat split. lia.
        -- eapply Forall_impl; [|exact Hall].
           intros c (p & Hp & H). exists p. split; [lia | exact H].
      * simpl. constructor; [|exact Hnd].
        rewrite in_map_iff. intros (c & Hid & Hin).
        rewrite Forall_forall in Hall.
        destruct (Hall c Hin) as (p & Hp & _ & Hidc & _).
        assert (Heq : claim_id (N.of_nat (p + 1)) = claim_id (N.of_nat (i + 1)))
          by congruence.
        apply claim_id_inj in Heq. lia.
    + destruct (IH (S i) claims) as (new & -> & Hall & Hnd).
      exists new. split; [reflexivity|]. split; [|exact Hnd].
      eapply Forall_impl; [|exact Hall].
      intros c (p & Hp & H). exists p. split; [lia | exact H].
Qed.

(** The claims of the sentence fallback have pairwise distinct ids, and
    the id of each is [claim_] followed by the number after its
    [original_position], the index of its sentence among the fragments;
    the one exception is the whole-text claim, which has neither. *)
Theorem fallback_ids_distinct (text : str) :
  NoDup (map id (_fallback_extraction text))
  /\ Forall (fun c =>
               c = whole_text_claim text
               \/ exists p, original_position c = Some p
                            /\ id c = Some (claim_id (N.of_nat (p + 1))))
            (_fallback_extraction text).
Proof.
  unfold _fallback_extraction.
  destruct (fallback_loop_new (re_split_class terminal_punctuation text) 0 [])
    as (new & Hloop & Hall & Hnd).
  rewrite Hloop. simpl.
  destruct new as [|c new].
  - split; [repeat constructor; simpl; tauto | repeat constructor].
  - split; [exact Hnd|].
    eapply Forall_impl; [|exact Hall].
    intros c' (p & _ & Hp & Hid & _). right. eauto.
Qed.

Lemma fallback_loop_texts_clean (sentences : list str) :
  Forall (Forall (fun ch => terminal_punctuation ch = false)) sentences ->
  forall (i : nat) (claims : list Claim),
  exists new,
    fallback_loop sentences i claims = claims ++ new
    /\ Forall (fun c =>
                 (10 < List.length (claim_text c))%nat
                 /\ Forall (fun ch => terminal_punctuation ch = false)
                           (claim_text c)
                 /\ strip (claim_text c) = claim_text c)
              new.
Proof.
  induction 1 as [|s rest Hs Hrest IH]; intros i claims; simpl.
  - exists []. rewrite app_nil_r. split; [reflexivity | constructor].
  - destruct (10 <? List.length (strip s))%nat eqn:Hlen.
    + destruct (IH (S i) (claims ++ [ {|
          id := Some (claim_id (N.of_nat (i + 1)));
          claim_text := strip s; confidence := c0_7; atomic := false;
          original_position := Some i |} ])) as (new & -> & Hall).
      eexists (_ :: new). rewrite <- app_assoc. split; [reflexivity|].
      constructor; [|exact Hall]. simpl.
      apply Nat.ltb_lt in Hlen.
      split; [exact Hlen|]. split; [now apply strip_Forall|].
      apply strip_idempotent.
    + destruct (IH (S i) claims) as (new & -> & Hall). eauto.
Qed.

(** Every claim of the sentence fallback, the whole-text claim apart, has
    a text of more than 10 characters, without terminal punctuation and
    without white space at either end. *)
Theorem fallback_texts_clean (text : str) :
  Forall (fun c =>
            c = whole_text_claim text
            \/ ((10 < List.length (claim_text c))%nat
                /\ Forall (fun ch => terminal_punctuation ch = false)
                          (claim_text c)
                /\ strip (claim_text c) = claim_text c))
         (_fallback_extraction text).
Proof.
  unfold _fallback_extraction.
  destruct (@fallback_loop_texts_clean
              (re_split_class terminal_punctuation text)
              (@split_runs_pieces terminal_punctuation text [] false
                                  (Forall_nil _)) 0 [])
    as (new & Hloop & Hall).
  rewrite Hloop. simpl. destruct new as [|c new].
  - repeat constructor.
  - eapply Forall_impl; [|exact Hall]. intros c' H. now right.
Qed.

(** A text of one sentence without terminal punctuation: when its trimmed
    length exceeds 10, the fallback gives the one claim [claim_1] with
    the trimmed text; otherwise it gives the whole text, untrimmed. *)
Theorem fallback_single_sentence (text : str) :
  Forall (fun ch => terminal_punctuation ch = false) text ->
  _fallback_extraction text
  = if (10 <? List.length (strip text))%nat
    then [ {| id := Some (py "claim_1"); claim_text := strip text;
              confidence := c0_7; atomic := false;
              original_position := Some 0 |} ]
    else [whole_text_claim text].
Proof.
  intros Hclean. unfold _fallback_extraction, re_split_class.
  rewrite (@split_runs_whole terminal_punctuation text [] Hclean). simpl.
  destruct (10 <? List.length (strip text))%nat; reflexivity.
Qed.

Lemma fallback_single_sentence_witness :
  Forall (fun ch => terminal_punctuation ch = false)
         (py "  Python is interpreted  ")
  /\ _fallback_extraction (py "  Python is interpreted  ")
     = [ {| id := Some (py "claim_1");
            claim_text := py "Python is interpreted";
            confidence := c0_7; atomic := false;
            original_position := Some 0 |} ].
Proof.
  assert (H : Forall (fun ch => terminal_punctuation ch = false)
                     (py "  Python is interpreted  ")).
  { vm_compute. repeat constructor. }
  split; [exact H|].
  rewrite (@fallback_single_sentence _ H). reflexivity.
Defined.

(** [_estimate_position] is at most the length of the text; when the
    claim occurs in the text, it is the place of the first occurrence,
    and it is 0 when the claim does not occur. *)
Theorem estimate_position_first_occurrence (claim_text original_text : str) :
  let p := _estimate_position claim_text original_text in
  (p <= List.length original_text)%nat
  /\ (contains claim_text original_text = true ->
      exists before after,
        original_text = before ++ claim_text ++ after
        /\ List.length before = p
        /\ forall j, (j < p)%nat ->
                     starts_with claim_text (skipn j original_text) = false)
  /\ (contains claim_text original_text = false ->
      p = 0%nat
      /\ forall before after, original_text <> before ++ claim_text ++ after).
Proof.
  unfold _estimate_position, contains, find.
  destruct (find_from claim_text original_text 0) as [p|] eqn:Hfind.
  - destruct (@find_from_found _ _ _ _ Hfind)
      as (before & after & Htext & Hp & Hmin).
    simpl in Hp. subst p. split; [|split].
    + rewrite Htext, length_app. lia.
    + intros _. exists before, after. auto.
    + discriminate.
  - split; [lia|]. split; [discriminate|].
    intros _. split; [reflexivity|]. exact (@find_from_missing _ _ _ Hfind).
Qed.

Lemma parse_loop_new (lines : list str) (original_text : str) :
  forall claims : list Claim,
  exists new,
    parse_loop lines original_text claims = claims ++ new
    /\ (List.length new <= List.length lines)%nat
    /\ Forall (fun c =>
                 (exists n, id c = Some (claim_id n))
                 /\ confidence c = c0_9 /\ atomic c = true
                 /\ strip (claim_text c) = claim_text c
                 /\ exists p, original_position c = Some p
                              /\ (p <= List.length original_text)%nat)
              new.
Proof.
  induction lines as [|line rest IH]; intros claims; simpl.
  - exists []. rewrite app_nil_r. repeat split; [apply Nat.le_0_l | constructor].
  - destruct (strip line) as [|c0 l0] eqn:Hline.
    + destruct (IH claims) as (new & -> & Hlen & Hall).
      exists new. repeat split; [lia | assumption].
    + destruct (match_claim_line (c0 :: l0)) as [[digits body]|].
      * match goal with |- context [parse_loop rest original_text ?acc] =>
          destruct (IH acc) as (new & -> & Hlen & Hall) end.
        eexists (_ :: new). rewrite <- app_assoc.
        split; [reflexivity|]. split; [simpl; lia|].
        constructor; [|exact Hall]. simpl.
        split; [eauto|]. split; [reflexivity|]. split; [reflexivity|].
        split; [apply strip_idempotent|].
        eexists. split; [reflexivity|].
        apply (estimate_position_first_occurrence (strip body) original_text).
      * destruct (IH claims) as (new & -> & Hlen & Hall).
        exists new. repeat split; [lia | assumption].
Qed.


(** Extraction returns either the whole-text claim, which has no id, or
    claims that all have one. *)
Theorem extract_claims_ids (self : ClaimExtractor.t) (text : str) (l l' : log)
    (claims : list Claim) :
  extract_claims self text l = (Return claims, l') ->
  claims = [whole_text_claim text]
  \/ Forall (fun c => exists k, id c = Some k) claims.
Proof.
  assert (Hfallback :
            _fallback_extraction text = [whole_text_claim text]
            \/ Forall (fun c => exists k, id c = Some k)
                      (_fallback_extraction text)).
  { unfold _fallback_extraction.
    destruct (fallback_loop_new (re_split_class terminal_punctuation text)
                                0 []) as (new & Hloop & Hall & _).
    rewrite Hloop. simpl. destruct new as [|c new]; [now left|].
    right. eapply Forall_impl; [|exact Hall].
    intros c' (p & _ & _ & Hid & _). eauto. }
  unfold extract_claims, bind, call_with_retry, lift, ret, field.
  destruct (_ || _).
  - intros [= <- _]. now left.
  - destruct (get_error _).
    + intros [= <- _]. exact Hfallback.
    + destruct (Gateway.text _) as [t|]; [|discriminate].
      intros [= <- _]. unfold _parse_claims_response.
      destruct (parse_loop_new (split 10%N (strip t)) text [])
        as (new & Hloop & _ & Hall).
      simpl in Hloop. rewrite Hloop.
      destruct new as [|c new]; [exact Hfallback|].
      right. eapply Forall_impl; [|exact Hall].
      intros c' ((n & Hid) & _). eauto.
Qed.

Lemma extract_claims_ids_witness :
  exists claims l',
    extract_claims {| llm := helpful_adapter |}
                   (py "Python is a compiled language from 2000.") []
    = (Return claims, l')
    /\ (claims = [whole_text_claim
                    (py "Python is a compiled language from 2000.")]
        \/ Forall (fun c => exists k, id c = Some k) claims).
Proof.
  do 2 eexists. split; [reflexivity|].
  exact (@extract_claims_ids {| llm := helpful_adapter |}
           (py "Python is a compiled language from 2000.") [] _ _ eq_refl).
Defined.

End ExtractionFurther.

(** ** Intent classification, further *)

Section IntentFurther.
Import Gateway IntentClassifier Scenarios Fixtures.

Lemma find_first {A} (f : A -> bool) (xs : list A) (x : A) :
  List.find f xs = Some x ->
  exists before after,
    xs = before ++ x :: after /\ f x = true
    /\ Forall (fun y => f y = false) before.
Proof.
  induction xs as [|y xs IH]; simpl; [discriminate|].
  destruct (f y) eqn:Hy.
  - intros [= <-]. exists [], xs. repeat split; [assumption | constructor].
  - intros H. destruct (IH H) as (before & after & -> & Hx & Hall).
    exists (y :: before), after. repeat split; [assumption|].
    now constructor.
Qed.

Lemma pattern_loop_supported (self : IntentClassifier.t)
    (ps : list (str -> option str)) (cleaned candidate : str) :
  pattern_loop self ps cleaned = Some candidate ->
  In candidate (supported_intents self).
Proof.
  induction ps as [|p ps IH]; simpl; [discriminate|].
  destruct (p cleaned) as [c|]; [|exact IH].
  destruct (str_in c (supported_intents self)) eqn:Hin; [|exact IH].
  intros [= <-]. now apply str_in_spec.
Qed.

(** [_parse_intent_response] returns a supported intent or the default.
    When some supported intent occurs in the trimmed response, it returns
    the first of the configured list that does, whatever the patterns
    would extract and wherever in the response it stands. *)
Theorem parse_intent_response_first_contained (self : IntentClassifier.t)
    (response : str) :
  let result := _parse_intent_response self response in
  (In result (supported_intents self) \/ result = default_intent self)
  /\ ((exists s, In s (supported_intents self)
                 /\ contains s (strip response) = true) ->
      exists before after,
        supported_intents self = before ++ result :: after
        /\ contains result (strip response) = true
        /\ Forall (fun s => contains s (strip response) = false) before).
Proof.
  unfold _parse_intent_response.
  destruct (List.find _ (supported_intents self)) as [s|] eqn:Hfind.
  - destruct (find_first _ _ Hfind) as (before & after & Hsplit & Hs & Hall).
    split.
    + left. rewrite Hsplit. apply in_elt.
    + intros _. exists before, after. auto.
  - split.
    + destruct (pattern_loop self patterns (strip response)) as [c|] eqn:Hloop.
      * left. exact (pattern_loop_supported _ _ _ Hloop).
      * now right.
    + intros (s & Hin & Hs).
      pose proof (find_none _ _ Hfind s Hin) as Hnone. simpl in Hnone.
      congruence.
Qed.

Lemma parse_intent_response_first_contained_witness :
  let self := __init__ (constant_adapter []) default_intents in
  let response := py "  这是一个方法查询，也可以说是比较查询。 " in
  (exists s, In s (supported_intents self)
             /\ contains s (strip response) = true)
  /\ _parse_intent_response self response = py "比较查询".
Proof.
  intros self response.
  assert (H : exists s, In s (supported_intents self)
                        /\ contains s (strip response) = true).
  { exists (py "方法查询"). split; [simpl; tauto | reflexivity]. }
  split; [exact H|].
  destruct (parse_intent_response_first_contained self response)
    as (_ & Hfirst).
  destruct (Hfirst H) as (before & after & _ & _ & _). reflexivity.
Defined.

(** For the three intents other than the comparison, the retrieval
    prompt is the template with the query between its brackets, and the
    gateway is not asked. *)
Theorem generate_retrieval_prompt_plain (llm : LLMAdapter) (config : Config)
    (query : str) (l : log) :
  let self := __init__ llm config in
  generate_retrieval_prompt self query (py "事实查询") l
  = (Return (py "找到关于[" ++ query ++ py "]的具体事实"), l)
  /\ generate_retrieval_prompt self query (py "方法查询") l
     = (Return (py "找到如何[" ++ query ++ py "]的方法或步骤"), l)
  /\ generate_retrieval_prompt self query (py "观点查询") l
     = (Return (py "找到关于[" ++ query ++ py "]的不同观点或评价"), l).
Proof. repeat split. Qed.

(** For the comparison intent one request is issued.  When the gateway
    is in error, or the answer holds fewer than two entities (trimmed,
    non-empty, separated by commas), the prompt is built on the query
    itself; otherwise on the first two entities, joined by 和. *)
Theorem generate_retrieval_prompt_comparison (llm : LLMAdapter)
    (config : Config) (query : str) (l : log) :
  let self := __init__ llm config in
  let r := llm (List.length l) (comparison_request query) in
  (get_error r = true ->
   generate_retrieval_prompt self query (py "比较查询") l
   = (Return (py "找到[" ++ query ++ py "]的对比信息"),
      l ++ [comparison_request query]))
  /\ (forall t,
         get_error r = false -> Gateway.text r = Some t ->
         let entities :=
           filter (fun e => match e with [] => false | _ => true end)
                  (map strip (split 44%N t)) in
         generate_retrieval_prompt self query (py "比较查询") l
         = (Return (py "找到["
                    ++ (if (2 <=? List.length entities)%nat
                        then join (py "和") (firstn 2 entities)
                        else query)
                    ++ py "]的对比信息"),
            l ++ [comparison_request query])).
Proof.
  intros self r.
  assert (Hgen :
            generate_retrieval_prompt self query (py "比较查询") l
            = (match (if get_error r then Return [query]
                      else match Gateway.text r with
                           | Some t =>
                             Return (filter (fun e => match e with
                                                      | [] => false
                                                      | _ => true
                                                      end)
                                            (map strip (split 44%N t)))
                           | None => Raise (KeyError (py "text"))
                           end) with
               | Return es =>
                 Return (py "找到["
                         ++ (if (2 <=? List.length es)%nat
                             then join (py "和") (firstn 2 es)
                             else query)
                         ++ py "]的对比信息")
               | Raise e => Raise e
               end, l ++ [comparison_request query])).
  { unfold generate_retrieval_prompt, _extract_comparison_entities.
    change (str_eqb (py "比较查询") (py "比较查询")) with true.
    cbv beta iota.
    unfold bind, call_with_retry, lift, ret, field.
    cbv beta iota zeta.
    change (IntentClassifier.llm self (List.length l) _) with r.
    destruct (get_error r).
    - reflexivity.
    - destruct (Gateway.text r) as [t|]; [|reflexivity].
      cbv beta iota.
      destruct (2 <=? List.length _)%nat; reflexivity. }
  split.
  - intros He. rewrite Hgen, He. reflexivity.
  - intros t He Ht entities. rewrite Hgen, He, Ht. reflexivity.
Qed.

Lemma generate_retrieval_prompt_comparison_witness :
  let self := __init__ helpful_adapter default_intents in
  let r := helpful_adapter 0 (comparison_request (py "Python or Rust?")) in
  get_error r = false
  /\ Gateway.text r = Some (py "Python, Rust")
  /\ generate_retrieval_prompt self (py "Python or Rust?") (py "比较查询") []
     = (Return (py "找到[Python和Rust]的对比信息"),
        [comparison_request (py "Python or Rust?")]).
Proof.
  intros self r. split; [reflexivity|]. split; [reflexivity|].
  destruct (generate_retrieval_prompt_comparison helpful_adapter
              default_intents (py "Python or Rust?") []) as (_ & H).
  exact (H (py "Python, Rust") eq_refl eq_refl).
Defined.

Lemma split_on_pieces (sep : N) (s cur : str) :
  Forall (fun c => (c =? sep)%N = false) cur ->
  Forall (Forall (fun c => (c =? sep)%N = false)) (split_on sep s cur).
Proof.
  revert cur. induction s as [|c s IH]; intros cur Hcur; simpl.
  - constructor; [now apply Forall_rev | constructor].
  - destruct (c =? sep)%N eqn:Hc.
    + constructor; [now apply Forall_rev | apply IH; constructor].
    + apply IH. now constructor.
Qed.

(** The entities read off an answer are not empty, have no white space
    at either end and hold no comma; when the gateway is in error the
    one entity is the query as it is. *)
Theorem comparison_entities_clean (self : IntentClassifier.t) (query : str)
    (l l' : log) (entities : list str) :
  _extract_comparison_entities self query l = (Return entities, l') ->
  let r := llm self (List.length l) (comparison_request query) in
  (get_error r = true /\ entities = [query])
  \/ (get_error r = false
      /\ Forall (fun e => e <> [] /\ strip e = e
                          /\ Forall (fun c => (c =? 44)%N = false) e)
                entities).
Proof.
  intros Hrun r. revert Hrun.
  unfold _extract_comparison_entities, bind, call_with_retry, lift, ret, field.
  fold (comparison_request query). fold r.
  destruct (get_error r).
  - intros [= <- _]. now left.
  - destruct (Gateway.text r) as [t|]; [|discriminate].
    intros [= <- _]. right. split; [reflexivity|].
    apply Forall_forall. intros e He.
    apply filter_In in He as [He Hne].
    apply in_map_iff in He as (piece & <- & Hpiece).
    split; [destruct (strip piece); [discriminate | discriminate]|].
    split; [apply strip_idempotent|].
    apply strip_Forall.
    pose proof (@split_on_pieces 44%N t [] (Forall_nil _)) as Hall.
    rewrite Forall_forall in Hall. exact (Hall _ Hpiece).
Qed.

Lemma comparison_entities_clean_witness :
  let self := __init__ (constant_adapter (py " Python , , Rust,")) default_intents in
  exists l',
    _extract_comparison_entities self (py "Python or Rust?") []
    = (Return [py "Python"; py "Rust"], l')
    /\ Forall (fun e => e <> [] /\ strip e = e
                        /\ Forall (fun c => (c =? 44)%N = false) e)
              [py "Python"; py "Rust"].
Proof.
  intros self. eexists. split; [reflexivity|].
  destruct (@comparison_entities_clean self (py "Python or Rust?") [] _ _
              eq_refl) as [[He _]|[_ H]]; [discriminate He | exact H].
Defined.

End IntentFurther.

(** ** Claim verification, further *)

Section VerificationFurther.
Import Gateway ClaimExtractor EvidenceVerifier Scenarios.

Ltac distinct_keys := intros E; vm_compute in E; discriminate.

Lemma ensure_lists_keeps_list (k : str) (fields : list str) (d : dict pyval)
    (xs : list pyval) :
  dict_get k d = Some (PList xs) ->
  exists ys, dict_get k (ensure_lists fields d) = Some (PList ys).
Proof.
  revert d xs. induction fields as [|f rest IH]; intros d xs Hk; simpl.
  - eauto.
  - destruct (dict_get f d) as [[]|] eqn:Hf; try (now apply (IH _ xs));
      (destruct (str_eqb_spec k f) as [->|Hne];
       [apply (IH _ []); apply dict_get_set_same
       |apply (IH _ xs); now rewrite dict_get_set_other]).
Qed.

Lemma ensure_lists_makes_list (f : str) (fields : list str) (d : dict pyval) :
  In f fields ->
  exists ys, dict_get f (ensure_lists fields d) = Some (PList ys).
Proof.
  revert d. induction fields as [|g rest IH]; intros d Hin; [destruct Hin|].
  destruct Hin as [->|Hin]; simpl.
  - destruct (dict_get f d) as [[]|] eqn:Hf;
      try (apply (@ensure_lists_keeps_list f rest _ []);
           apply dict_get_set_same).
    now apply (@ensure_lists_keeps_list f rest d l).
  - destruct (dict_get g d) as [[]|]; now apply IH.
Qed.

(** Every verification that [verify_claim] returns, whichever way it was
    built, has a verdict and a confidence, has the claim it was asked
    about under [claim] (whatever the model wrote there), and has lists
    under [supporting_evidence] and [contradicting_evidence]. *)
Theorem verify_claim_result_shape (self : EvidenceVerifier.t) (claim : str)
    (ev : list pyval) (query intent : str) (l l' : log) (res : dict pyval) :
  verify_claim self claim ev query intent l = (Return res, l') ->
  dict_get (py "claim") res = Some (PStr claim)
  /\ (exists v, dict_get (py "verdict") res = Some v)
  /\ (exists c, dict_get (py "confidence") res = Some c)
  /\ (exists xs, dict_get (py "supporting_evidence") res = Some (PList xs))
  /\ (exists xs, dict_get (py "contradicting_evidence") res
                 = Some (PList xs)).
Proof.
  assert (Hfallback : forall t,
             let r := _create_fallback_result claim intent t in
             dict_get (py "claim") r = Some (PStr claim)
             /\ (exists v, dict_get (py "verdict") r = Some v)
             /\ (exists c, dict_get (py "confidence") r = Some c)
             /\ (exists xs, dict_get (py "supporting_evidence") r
                            = Some (PList xs))
             /\ (exists xs, dict_get (py "contradicting_evidence") r
                            = Some (PList xs))).
  { intros t. repeat split; eexists; reflexivity. }
  unfold verify_claim, bind, call_with_retry, lift, ret, field.
  destruct (get_error _).
  - destruct (error_message _) as [m|]; [|discriminate].
    intros [= <- _]. repeat split; eexists; reflexivity.
  - destruct (Gateway.text _) as [t|]; [|discriminate]. cbv beta iota.
    destruct (_parse_verification_response t claim intent) as [r|e] eqn:Hparse;
      [|discriminate].
    intros [= <- _]. revert Hparse. unfold _parse_verification_response.
    destruct (decode_response t) as [v|];
      [|intros [= <-]; apply Hfallback].
    destruct (missing_field _ v) as [[]|e] eqn:Hmiss; try discriminate;
      [intros [= <-]; apply Hfallback|].
    destruct v as [| | | | | |d]; try discriminate.
    rewrite missing_field_object in Hmiss. injection Hmiss as Hmiss.
    apply negb_false_iff, andb_true_iff in Hmiss as [Hv Hc].
    unfold dict_has in Hv, Hc.
    destruct (dict_get (py "verdict") d) as [vd|] eqn:Hvd; [|discriminate].
    destruct (dict_get (py "confidence") d) as [cf|] eqn:Hcf; [|discriminate].
    cbv zeta. intros Hres.
    replace r
      with (ensure_lists [py "supporting_evidence";
                          py "contradicting_evidence"]
              (dict_set (py "intent") (PStr intent)
                 (dict_set (py "claim") (PStr claim) d)))
      by congruence.
    clear Hres.
    assert (Hother : forall k, k <> py "claim" -> k <> py "intent" ->
               ~ In k [py "supporting_evidence"; py "contradicting_evidence"] ->
               dict_get k (ensure_lists [py "supporting_evidence";
                                         py "contradicting_evidence"]
                             (dict_set (py "intent") (PStr intent)
                                (dict_set (py "claim") (PStr claim) d)))
               = dict_get k d).
    { intros k H1 H2 H3. rewrite ensure_lists_get_other by assumption.
      now rewrite !dict_get_set_other. }
    split; [|split; [|split; [|split]]].
    + rewrite ensure_lists_get_other
        by (intros [E|[E|[]]]; revert E; distinct_keys).
      rewrite dict_get_set_other by distinct_keys.
      apply dict_get_set_same.
    + exists vd. rewrite Hother; [assumption | distinct_keys | distinct_keys |].
      intros [E|[E|[]]]; revert E; distinct_keys.
    + exists cf. rewrite Hother; [assumption | distinct_keys | distinct_keys |].
      intros [E|[E|[]]]; revert E; distinct_keys.
    + apply ensure_lists_makes_list. now left.
    + apply ensure_lists_makes_list. right. now left.
Qed.

Lemma verify_claim_result_shape_witness :
  exists res l',
    verify_claim (__init__ (constant_adapter (verdict_json (py "MAYBE"))) [])
                 (py "Python is compiled") [] (py "q") (py "事实查询") []
    = (Return res, l')
    /\ dict_get (py "claim") res = Some (PStr (py "Python is compiled"))
    /\ (exists v, dict_get (py "verdict") res = Some v)
    /\ (exists c, dict_get (py "confidence") res = Some c)
    /\ (exists xs, dict_get (py "supporting_evidence") res = Some (PList xs))
    /\ (exists xs, dict_get (py "contradicting_evidence") res
                   = Some (PList xs)).
Proof.
  do 2 eexists. split; [reflexivity|].
  exact (@verify_claim_result_shape
           (__init__ (constant_adapter (verdict_json (py "MAYBE"))) [])
           (py "Python is compiled") [] (py "q") (py "事实查询") [] _ _
           eq_refl).
Defined.

End VerificationFurther.
